(** * woo9600: sales aggregation, moving averages and the ASCII chart

    A shallow embedding of [woo9600.py] and the properties of its
    aggregation / smoothing / rendering pipeline.

    Conventions of the embedding.
    - A Python [int] is a [Z].  A Python number that may be a [float]
      (weights, averages, plotted values) is an exact rational [Q]: the
      arithmetic operators are the exact ones, so the rounding error of
      binary64 is outside this model.  [==] on numbers is [Qeq].
    - A Python [str] is the list of its code points.
    - A function that can raise returns a [result]; exceptions propagate
      through the bind of the [result] monad.
    - A [dict] is an association list in insertion order. *)

From Stdlib Require Import ZArith QArith Qround Qabs Qminmax Lia Lqa.
From stdpp Require Import base decidable option list list_numbers
  lexico sorting strings pretty.
Close Scope Q_scope.
Local Open Scope Z_scope.

(** ** Exceptions and results *)

Inductive exn : Type :=
| ValueError (msg : string)
| ZeroDivisionError.

Inductive result (A : Type) : Type :=
| Ok (a : A)
| Raise (e : exn).
Arguments Ok {A} a.
Arguments Raise {A} e.

#[global] Instance result_ret : MRet result := @Ok.
#[global] Instance result_bind : MBind result := λ A B f m,
  match m with
  | Ok a => f a
  | Raise e => Raise e
  end.
#[global] Instance result_fmap : FMap result := λ A B f m,
  match m with
  | Ok a => Ok (f a)
  | Raise e => Raise e
  end.

Definition is_ok {A} (r : result A) : Prop := ∃ a, r = Ok a.

#[global] Instance exn_eq_dec : EqDecision exn.
Proof. solve_decision. Defined.
#[global] Instance result_eq_dec {A} `{EqDecision A} : EqDecision (result A).
Proof. solve_decision. Defined.

(** ** Python built-ins used by the program *)

Module Py.

(** [str]: a sequence of code points. *)
Abbreviation char := N.
Abbreviation str := (list char).

(** An ASCII literal. *)
Definition lit (s : string) : str :=
  Ascii.N_of_ascii <$> String.list_ascii_of_string s.

(** [len(l)] *)
Definition len {A} (l : list A) : Z := Z.of_nat (length l).

(** [range(n)] *)
Definition range (n : Z) : list Z := seqZ 0 n.

(** [enumerate(l)] *)
Definition enumerate {A} (l : list A) : list (Z * A) :=
  zip (range (len l)) l.

(** [l * n] for a list (or a string) [l]: empty when [n <= 0]. *)
Definition repeat {A} (l : list A) (n : Z) : list A :=
  mjoin (replicate (Z.to_nat n) l).

(** [l[a:b]]: a negative bound counts from the end, and both bounds are
    clamped to the list. *)
Definition slice_bound (n i : Z) : Z :=
  if bool_decide (i < 0) then Z.max 0 (i + n) else Z.min i n.
Definition slice {A} (l : list A) (a b : Z) : list A :=
  let a' := slice_bound (len l) a in
  let b' := slice_bound (len l) b in
  take (Z.to_nat (b' - a')) (drop (Z.to_nat a') l).

(** [a / b] on numbers. *)
Definition truediv (a b : Q) : result Q :=
  if Qeq_bool b 0 then Raise ZeroDivisionError else Ok (a / b)%Q.

(** [a > b] on numbers. *)
Definition gt (a b : Q) : bool := negb (Qle_bool a b).

(** [min(a, b)]: the first of the smallest arguments. *)
Definition min (a b : Q) : Q := if gt a b then b else a.

(** [sum(xs)]: starts from [0] and adds from the left. *)
Definition sum (xs : list Q) : Q := fold_left Qplus xs 0%Q.

(** [int(x)]: truncation toward zero. *)
Definition int (x : Q) : Z := Z.quot (Qnum x) (Z.pos (Qden x)).

(** [math.floor(x)], the rounding the specification speaks of. *)
Definition floor (x : Q) : Z := Qfloor x.

(** Rounding to the nearest integer, ties to the even one. *)
Definition round_half_even (x : Q) : Z :=
  let f := Qfloor x in
  match (x - inject_Z f ?= 1 # 2)%Q with
  | Lt => f
  | Gt => f + 1
  | Eq => if Z.even f then f else f + 1
  end.

(** [round(x, 2)] *)
Definition round2 (x : Q) : Q :=
  Qred (inject_Z (round_half_even (x * 100)) / 100)%Q.

(** [str(n)] for an [int]. *)
Definition str_of_int (n : Z) : str := lit (pretty n).

(** The line separator of the chart. *)
Definition newline : str := [10%N].

(** [sep.join(l)] *)
Fixpoint join (sep : str) (l : list str) : str :=
  match l with
  | [] => []
  | [s] => s
  | s :: l => s ++ sep ++ join sep l
  end.

(** The format specifications of the f-strings: [{s:<w}] pads on the
    right, [{n:wd}] pads on the left, [{s:^w}] centres and leaves the
    odd blank on the right; none of them truncates.  A negative width in
    a format specification is refused. *)
Definition blanks (n : Z) : str := repeat (lit " ") n.
Definition format_left (s : str) (w : Z) : str := s ++ blanks (w - len s).
Definition format_d (n : Z) (w : Z) : str :=
  let s := str_of_int n in blanks (w - len s) ++ s.
Definition format_center (s : str) (w : Z) : result str :=
  if bool_decide (w < 0)
  then Raise (ValueError "Sign not allowed in string format specifier")
  else
    let pad := w - len s in
    let left := pad `div` 2 in
    Ok (blanks left ++ s ++ blanks (pad - left)).

(** A [dict]: keys with their values, in insertion order.  [d[k] = v]
    overwrites in place or appends a new key. *)
Fixpoint dict_get {V} (d : list (str * V)) (k : str) : option V :=
  match d with
  | [] => None
  | (k', v) :: d => if decide (k' = k) then Some v else dict_get d k
  end.
Fixpoint dict_set {V} (d : list (str * V)) (k : str) (v : V)
  : list (str * V) :=
  match d with
  | [] => [(k, v)]
  | (k', v') :: d =>
      if decide (k' = k) then (k', v) :: d else (k', v') :: dict_set d k v
  end.

(** [d[k] += 1] on a [defaultdict(int)]: a missing key starts from 0. *)
Definition defaultdict_incr (d : list (str * Z)) (k : str)
  : list (str * Z) :=
  dict_set d k (default 0 (dict_get d k) + 1).

(** [dict(items)] *)
Definition dict_of_items {V} (items : list (str * V)) : list (str * V) :=
  fold_left (λ d '(k, v), dict_set d k v) items [].

(** [<] on strings and on (key, count) tuples is lexicographic. *)
Definition item_lt : relation (str * Z) := lexico.

(** [sorted(items)]: the stable ascending sort; an item goes first
    unless the other one is smaller. *)
Definition sorted (items : list (str * Z)) : list (str * Z) :=
  merge_sort (λ a b, ¬ item_lt b a) items.

(** A [for] loop whose body may raise. *)
Fixpoint for_each {A S} (body : S → A → result S) (l : list A) (s : S)
  : result S :=
  match l with
  | [] => Ok s
  | x :: l => s' ← body s x; for_each body l s'
  end.

End Py.

(** The part of the [datetime] library the program calls. *)
Class Datetime : Type := {
  datetime : Type;
  fromisoformat : Py.str → result datetime;
  strftime : datetime → Py.str → Py.str
}.

(** An order record.  Only its creation timestamp is read; the key
    ['date_created'] is taken to be present and to hold a string. *)
Record order : Type := { date_created : Py.str }.

(** ** WooCommerceAnalytics *)

Module WooCommerceAnalytics.

Section aggregate.
Context `{Datetime}.

(** The day an order is counted under. *)
Definition order_date (o : order) : result Py.str :=
  dt ← fromisoformat (date_created o);
  mret (strftime dt (Py.lit "%Y-%m-%d")).

Definition aggregate_daily_sales (orders : list order)
  : result (list (Py.str * Z)) :=
  daily_sales ←
    Py.for_each (λ daily_sales o,
                   date ← order_date o;
                   mret (Py.defaultdict_incr daily_sales date))
      orders [];
  mret (Py.dict_of_items (Py.sorted daily_sales)).
End aggregate.

Definition InvalidWeightLength : exn :=
  ValueError "Length of weights must equal window size".
Definition WeightsNotNormalized : exn :=
  ValueError "Weights must sum to 1".

(** The tolerance [1e-10]. *)
Definition tol : Q := 1 # 10000000000.

(** The weights in effect: [[1/window] * window] when none are given. *)
Definition effective_weights (window : Z) (weights : option (list Q))
  : result (list Q) :=
  match weights with
  | None => w ← Py.truediv 1 (inject_Z window); mret (Py.repeat [w] window)
  | Some ws => mret ws
  end.

(** The statement executed for index [i] of the loop. *)
Definition moving_average_step (data : list Q) (window : Z)
    (weights : list Q) (result : list (option Q)) (i : Z)
  : list (option Q) :=
  if bool_decide (i < window - 1) then result ++ [None]
  else
    let weighted_sum :=
      Py.sum (zip_with Qmult weights
                (Py.slice data (i - window + 1) (i + 1))) in
    result ++ [Some (Py.round2 weighted_sum)].

Definition calculate_moving_average (data : list Q) (window : Z)
    (weights : option (list Q)) : result (list (option Q)) :=
  weights ← effective_weights window weights;
  if bool_decide (Py.len weights ≠ window) then Raise InvalidWeightLength
  else if Py.gt (Qabs (Py.sum weights - 1)) tol
  then Raise WeightsNotNormalized
  else
    mret (fold_left (moving_average_step data window weights)
            (Py.range (Py.len data)) []).

End WooCommerceAnalytics.

(** ** RetroASCIIGraph

    The class body binds [__init__], [normalize_data] and [draw] twice.  A
    class body is executed from top to bottom, so the second binding of
    each name replaces the first: the class that exists once the module is
    loaded has the methods of module [RetroASCIIGraph] below, and those of
    module [Superseded] are never called. *)

Module Glyph.
Import Py.

(** The non-ASCII literals, code point by code point as they stand in
    the source file read as UTF-8. *)
Definition dot : str := [194; 183]%N.
Definition double_horizontal : str := [226; 8226]%N.
Definition double_down_right : str := [226; 8226; 8221]%N.
Definition double_down_left : str := [226; 8226; 8212]%N.
Definition double_vertical : str := [226; 8226; 8216]%N.
Definition double_up_right : str := [226; 8226; 353]%N.
Definition double_up_left : str := [226; 8226]%N.
Definition light_vertical : str := [226; 8221; 8218]%N.
Definition light_horizontal : str := [226; 8221; 8364]%N.
Definition light_up_horizontal : str := [226; 8221; 180]%N.
Definition vertical_double_right : str := [226; 8226; 376]%N.
Definition vertical_double_left : str := [226; 8226; 162]%N.

Definition legend_top : str :=
  double_down_right ++ repeat double_horizontal 4 ++ lit " DATA SERIES "
  ++ repeat double_horizontal 21 ++ double_down_left.
Definition legend_bottom : str :=
  double_up_right ++ repeat double_horizontal 38 ++ double_up_left.
End Glyph.

(** A series handed to [draw]: [(data, label, symbol)]. *)
Definition series : Type := list (option Q) * Py.str * Py.str.

(** The canvas: rows of cells, each cell a string. *)
Abbreviation canvas := (list (list Py.str)).

Module RetroASCIIGraph.
Import Py Glyph.

Record t : Type := {
  width : Z;
  height : Z;
  max_y : Z;
  min_y : Z;
  left_margin : Z;
  total_width : Z
}.

Definition __init__ : t :=
  let width := 100 in
  let left_margin := 6 in
  {| width := width; height := 20; max_y := 20; min_y := 0;
     left_margin := left_margin;
     total_width := width + left_margin + 1 |}.

Definition normalize_value (self : t) (x : option Q) : result (option Z) :=
  match x with
  | None => mret None
  | Some x =>
      q ← truediv (min x (inject_Z (max_y self))) (inject_Z (max_y self));
      mret (Some (height self - 1 - int (q * inject_Z (height self - 1))))
  end.

Definition normalize_data (self : t) (data : list (option Q))
  : result (list (option Z)) :=
  mapM (normalize_value self) data.

(** [graph[y][x] = symbol] under the bounds test of the inner loop. *)
Definition plot_point (self : t) (x_scale : Q) (symbol : str)
    (graph : canvas) (p : Z * option Z) : canvas :=
  match p.2 with
  | None => graph
  | Some y =>
      let x := int (inject_Z p.1 * x_scale) in
      if bool_decide (0 ≤ x < width self ∧ 0 ≤ y < height self)
      then alter (<[Z.to_nat x := symbol]>) (Z.to_nat y) graph
      else graph
  end.

Definition plot_series (self : t) (x_scale : Q) (graph : canvas)
    (s : list (option Z) * str * str) : canvas :=
  let '(normalized_data, _, symbol) := s in
  fold_left (plot_point self x_scale symbol) (enumerate normalized_data)
    graph.

(** The grid of dots the plot starts from. *)
Definition blank_graph (self : t) : canvas :=
  replicate (Z.to_nat (height self))
    (replicate (Z.to_nat (width self)) dot).

(** First half of [draw]: normalisation, the blank grid, the scale and
    the plotting loops. *)
Definition plot (self : t) (data_series : list series) (days_ago : list Z)
  : result (canvas * Q) :=
  normalized_series ←
    mapM (λ '(data, label, symbol),
            nd ← normalize_data self data; mret (nd, label, symbol))
      data_series;
  let graph := blank_graph self in
  x_scale ← truediv (inject_Z (width self - 1))
               (inject_Z (len days_ago - 1));
  mret (fold_left (plot_series self x_scale) normalized_series graph,
        x_scale).

(** The centred label written by the inner loop of the x axis. *)
Definition put_label (self : t) (x_axis : list str) (p : Z * str)
  : list str :=
  let '(pos, label) := p in
  let start := Z.max 0 (pos - len label `div` 2) in
  fold_left (λ x_axis '(j, char),
               if bool_decide (start + j < width self)
               then <[Z.to_nat (start + j) := [char]]> x_axis
               else x_axis)
    (enumerate label) x_axis.

(** Second half of [draw]: the lines of text. *)
Definition render (self : t) (data_series : list series)
    (days_ago : list Z) (graph : canvas) (x_scale : Q) : result str :=
  let output := [] in
  let output := output ++ [legend_top] in
  let output :=
    fold_left (λ output '(_, label, symbol),
                 output ++ [double_vertical ++ lit " " ++ symbol
                            ++ lit " : " ++ format_left label 32
                            ++ lit " " ++ double_vertical])
      data_series output in
  let output := output ++ [legend_bottom] in
  let output := output ++ [[]] in
  let output :=
    output ++ [double_down_right
               ++ repeat double_horizontal (total_width self)
               ++ double_down_left] in
  let output :=
    fold_left (λ output i,
                 let y_value := max_y self - i in
                 output ++ [double_vertical ++ lit " "
                            ++ format_d y_value 2 ++ lit " "
                            ++ light_vertical ++ lit " "
                            ++ mjoin (default [] (graph !! Z.to_nat i))
                            ++ lit " " ++ double_vertical])
      (range (height self)) output in
  let output :=
    output ++ [vertical_double_right
               ++ repeat light_horizontal (left_margin self)
               ++ light_up_horizontal
               ++ repeat light_horizontal (width self)
               ++ vertical_double_left] in
  let label_positions :=
    (λ '(i, day), int (inject_Z i * x_scale)) <$> enumerate days_ago in
  let x_labels := (λ '(i, day), str_of_int day) <$> enumerate days_ago in
  let x_axis := replicate (Z.to_nat (width self)) (lit " ") in
  let x_axis :=
    fold_left (put_label self) (zip label_positions x_labels) x_axis in
  let output :=
    output ++ [double_vertical ++ lit " "
               ++ repeat (lit " ") (left_margin self) ++ mjoin x_axis
               ++ double_vertical] in
  caption ← format_center (lit "Days Ago") (width self);
  let output :=
    output ++ [double_vertical ++ lit " "
               ++ repeat (lit " ") (left_margin self) ++ caption
               ++ double_vertical] in
  let output :=
    output ++ [double_up_right
               ++ repeat double_horizontal (total_width self)
               ++ double_up_left] in
  mret (join newline output).

Definition draw (self : t) (data_series : list series) (days_ago : list Z)
  : result str :=
  '(graph, x_scale) ← plot self data_series days_ago;
  render self data_series days_ago graph x_scale.

End RetroASCIIGraph.


(** The first bindings of the class body, replaced before any instance
    exists.  [self.width] and [self.total_width] are assigned at the top of
    [draw] and read only below that point; they are bound by [let]. *)
Module Superseded.
Import Py Glyph.

Record t : Type := {
  height : Z;
  max_y : Z;
  min_y : Z;
  left_margin : Z;
  label_spacing : Z
}.

Definition __init__ : t :=
  {| height := 20; max_y := 20; min_y := 0; left_margin := 6;
     label_spacing := 3 |}.

Definition normalize_value (self : t) (x : option Q) : result (option Z) :=
  match x with
  | None => mret None
  | Some x =>
      q ← truediv (min x (inject_Z (max_y self))) (inject_Z (max_y self));
      mret (Some (height self - 1 - int (q * inject_Z (height self - 1))))
  end.

Definition normalize_data (self : t) (data : list (option Q))
  : result (list (option Z)) :=
  mapM (normalize_value self) data.

(** The width assigned to [self.width] by [draw]. *)
Definition draw_width (self : t) (days_ago : list Z) : Z :=
  len days_ago * label_spacing self - 1.

Definition plot_point (self : t) (width : Z) (x_scale : Q) (symbol : str)
    (graph : canvas) (p : Z * option Z) : canvas :=
  match p.2 with
  | None => graph
  | Some y =>
      let x := int (inject_Z p.1 * x_scale) in
      if bool_decide (0 ≤ x < width ∧ 0 ≤ y < height self)
      then alter (<[Z.to_nat x := symbol]>) (Z.to_nat y) graph
      else graph
  end.

Definition plot_series (self : t) (width : Z) (x_scale : Q)
    (graph : canvas) (s : list (option Z) * str * str) : canvas :=
  let '(normalized_data, _, symbol) := s in
  fold_left (plot_point self width x_scale symbol)
    (enumerate normalized_data) graph.

(** The grid of dots the plot starts from. *)
Definition blank_graph (self : t) (width : Z) : canvas :=
  replicate (Z.to_nat (height self)) (replicate (Z.to_nat width) dot).

Definition plot (self : t) (data_series : list series) (days_ago : list Z)
  : result canvas :=
  let width := draw_width self days_ago in
  normalized_series ←
    mapM (λ '(data, label, symbol),
            nd ← normalize_data self data; mret (nd, label, symbol))
      data_series;
  let graph := blank_graph self width in
  x_scale ← truediv (inject_Z (width - 1)) (inject_Z (len days_ago - 1));
  mret (fold_left (plot_series self width x_scale) normalized_series graph).

(** The left-aligned label written by the inner loop of the x axis. *)
Definition put_label (self : t) (width : Z) (x_axis : list str)
    (p : Z * Z) : list str :=
  let '(i, day) := p in
  let pos := i * label_spacing self in
  let label := str_of_int day in
  fold_left (λ x_axis '(j, char),
               if bool_decide (pos + j < width)
               then <[Z.to_nat (pos + j) := [char]]> x_axis
               else x_axis)
    (enumerate label) x_axis.

Definition render (self : t) (data_series : list series)
    (days_ago : list Z) (graph : canvas) : result str :=
  let width := draw_width self days_ago in
  let total_width := width + left_margin self + 2 in
  let output := [] in
  let output := output ++ [legend_top] in
  let output :=
    fold_left (λ output '(_, label, symbol),
                 output ++ [double_vertical ++ lit " " ++ symbol
                            ++ lit " : " ++ format_left label 32
                            ++ lit " " ++ double_vertical])
      data_series output in
  let output := output ++ [legend_bottom] in
  let output := output ++ [[]] in
  let output :=
    output ++ [double_down_right ++ repeat double_horizontal total_width
               ++ double_down_left] in
  let output :=
    fold_left (λ output i,
                 let y_value := max_y self - i in
                 output ++ [double_vertical ++ lit " "
                            ++ format_d y_value 2 ++ lit " "
                            ++ light_vertical ++ lit " "
                            ++ mjoin (default [] (graph !! Z.to_nat i))
                            ++ lit " " ++ double_vertical])
      (range (height self)) output in
  let output :=
    output ++ [vertical_double_right
               ++ repeat light_horizontal (left_margin self)
               ++ light_up_horizontal ++ repeat light_horizontal width
               ++ vertical_double_left] in
  let x_axis := replicate (Z.to_nat width) (lit " ") in
  let x_axis := fold_left (put_label self width) (enumerate days_ago) x_axis in
  let output :=
    output ++ [double_vertical ++ lit " "
               ++ repeat (lit " ") (left_margin self) ++ mjoin x_axis
               ++ lit " " ++ double_vertical] in
  caption ← format_center (lit "Days Ago") width;
  let output :=
    output ++ [double_vertical ++ lit " "
               ++ repeat (lit " ") (left_margin self) ++ caption
               ++ lit " " ++ double_vertical] in
  let output :=
    output ++ [double_up_right ++ repeat double_horizontal total_width
               ++ double_up_left] in
  mret (join newline output).

Definition draw (self : t) (data_series : list series) (days_ago : list Z)
  : result str :=
  graph ← plot self data_series days_ago;
  render self data_series days_ago graph.

End Superseded.

(** ** A calendar for the examples

    An instance of [Datetime] for evaluating the aggregator on concrete
    orders.  It accepts the timestamps [YYYY-MM-DD] and
    [YYYY-MM-DDTHH:MM:SS] of the proleptic Gregorian calendar with a
    four-digit year from 1000 on, all of which [datetime.fromisoformat]
    accepts too, and formats with the directives [%Y], [%m], [%d] and
    [%%].  The text of the exception is abbreviated. *)

Module IsoCalendar.
Import Py.

Record date : Type := { year : Z; month : Z; day : Z }.

Definition digit (c : char) : option Z :=
  if bool_decide (48 ≤ c ≤ 57)%N then Some (Z.of_N c - 48) else None.

Definition number (cs : list char) : option Z :=
  foldl (λ acc c, n ← acc; d ← digit c; Some (10 * n + d)) (Some 0) cs.

Definition is_leap (y : Z) : bool :=
  bool_decide (y `mod` 4 = 0 ∧ (y `mod` 100 ≠ 0 ∨ y `mod` 400 = 0)).

Definition days_in_month (y m : Z) : Z :=
  if bool_decide (m = 2) then (if is_leap y then 29 else 28)
  else if bool_decide (m ∈ [4; 6; 9; 11]) then 30 else 31.

Definition parse_date (s : str) : option date :=
  match s with
  | [y1; y2; y3; y4; 45; m1; m2; 45; d1; d2]%N =>
      y ← number [y1; y2; y3; y4];
      m ← number [m1; m2];
      d ← number [d1; d2];
      if bool_decide (1000 ≤ y ∧ 1 ≤ m ≤ 12 ∧ 1 ≤ d ≤ days_in_month y m)
      then Some {| year := y; month := m; day := d |}
      else None
  | _ => None
  end.

Definition parse_time (s : str) : bool :=
  match s with
  | [h1; h2; 58; m1; m2; 58; s1; s2]%N =>
      match number [h1; h2], number [m1; m2], number [s1; s2] with
      | Some h, Some m, Some s =>
          bool_decide (h < 24 ∧ m < 60 ∧ s < 60)
      | _, _, _ => false
      end
  | _ => false
  end.

Definition invalid : exn := ValueError "Invalid isoformat string".

Definition parse (s : str) : result date :=
  match parse_date (take 10 s), drop 10 s with
  | Some d, [] => Ok d
  | Some d, sep :: time =>
      if bool_decide (sep = 84%N) && parse_time time then Ok d
      else Raise invalid
  | None, _ => Raise invalid
  end.

(** The [w] decimal digits of a field, zero-padded; for [0 <= n < 10^w]. *)
Fixpoint zero_padded (w : nat) (n : Z) : str :=
  match w with
  | O => []
  | S w => zero_padded w (n `div` 10) ++ [Z.to_N (48 + n `mod` 10)]
  end.

Fixpoint format (d : date) (fmt : str) : str :=
  match fmt with
  | 37%N :: c :: fmt' =>
      (if bool_decide (c = 89%N) then zero_padded 4 (year d)
       else if bool_decide (c = 109%N) then zero_padded 2 (month d)
       else if bool_decide (c = 100%N) then zero_padded 2 (day d)
       else if bool_decide (c = 37%N) then [37%N]
       else [37%N; c]) ++ format d fmt'
  | c :: fmt' => c :: format d fmt'
  | [] => []
  end.

Definition calendar : Datetime :=
  {| datetime := date; fromisoformat := parse; strftime := format |}.

(** The dates [parse] returns, and the chronological order on dates. *)
Definition valid (d : date) : Prop :=
  1000 ≤ year d ≤ 9999 ∧ 1 ≤ month d ≤ 12 ∧ 1 ≤ day d ≤ 31.
Definition earlier (a b : date) : Prop :=
  year a < year b
  ∨ year a = year b
    ∧ (month a < month b ∨ month a = month b ∧ day a < day b).

End IsoCalendar.

(** ** Fetching and reporting

    The rest of the program: the banner, the paginated fetch and [main].
    The shop client, the clock and the date arithmetic are library code and
    are taken as an interface; [datetime.now()] is the reading [now] of the
    clock at the call.  The [while True] loop of the fetch runs on fuel: the
    outcome is [None] while the loop is still running when the fuel is
    spent. *)

(** The [params] of the request for one page of orders. *)
Record orders_query : Type := {
  after : Py.str;
  before : Py.str;
  per_page : Z;
  page : Z;
  status : Py.str
}.

(** [API(url, consumer_key, consumer_secret, version, timeout)],
    [wcapi.get(endpoint, params).json()], [datetime.now()],
    [d - timedelta(days=n)] and [d.isoformat()]. *)
Class Shop `{Datetime} : Type := {
  api : Type;
  API : Py.str → Py.str → Py.str → Py.str → Z → api;
  get_json : api → Py.str → orders_query → result (list order);
  now : datetime;
  minus_days : datetime → Z → datetime;
  isoformat : datetime → Py.str
}.

Module Report.
Import Py Glyph.

(** [range(start, stop, -1)] *)
Definition range_down (start stop : Z) : list Z :=
  (λ i, start - i) <$> range (start - stop).

(** [str(e)] of an exception: its message. *)
Definition str_of_exn (e : exn) : str :=
  match e with
  | ValueError msg => lit msg
  | ZeroDivisionError => lit "division by zero"
  end.

Definition print_retro_header : str :=
  let header :=
    newline
    ++ double_down_right ++ repeat double_horizontal 77 ++ double_down_left
    ++ newline
    ++ double_vertical ++ lit "                    W O O C O M M E R C E   A N A L Y T I C S                " ++ double_vertical
    ++ newline
    ++ double_vertical ++ lit "                        [ Sales Performance Monitor ]                        " ++ double_vertical
    ++ newline
    ++ double_up_right ++ repeat double_horizontal 77 ++ double_up_left
    ++ newline in
  header.

Section client.
Context `{Shop}.

(** An instance of [WooCommerceAnalytics]. *)
Record t : Type := { wcapi : api }.

Definition __init__ (url consumer_key consumer_secret : str) : t :=
  {| wcapi := API url consumer_key consumer_secret (lit "wc/v3") 60 |}.

(** The [while True] loop of [get_sales_data], one iteration per unit of
    fuel. *)
Fixpoint fetch_loop (fuel : nat) (self : t) (start_date end_date : datetime)
    (all_orders : list order) (page : Z) : option (result (list order)) :=
  match fuel with
  | O => None
  | S fuel =>
      match get_json (wcapi self) (lit "orders")
              {| after := isoformat start_date;
                 before := isoformat end_date;
                 per_page := 100;
                 page := page;
                 status := lit "completed" |} with
      | Raise e => Some (Raise e)
      | Ok [] => Some (Ok all_orders)
      | Ok orders =>
          fetch_loop fuel self start_date end_date (all_orders ++ orders)
            (page + 1)
      end
  end.

Definition get_sales_data (fuel : nat) (self : t) (days : Z)
  : option (result (list order)) :=
  let end_date := now in
  let start_date := minus_days end_date days in
  fetch_loop fuel self start_date end_date [] 1.

(** How a run of [main] ends: it returns, it dies of the [KeyError] of a
    key missing from [keys.json], or it is still fetching. *)
Inductive ending : Type :=
| Returned
| KeyError (key : str)
| Unfinished.

(** A run of [main]: the arguments of its [print] calls, in order, and its
    ending. *)
Record run : Type := { printed : list str; end_of_run : ending }.

Definition fetching : str :=
  [226; 353; 161]%N ++ lit " Fetching sales data...".
Definition processing : str :=
  [240; 376; 8220; 352]%N ++ lit " Processing statistics...".
Definition press_any_key : str := newline ++ lit "[Press any key to exit]".
Definition full_block : str := [226; 8211; 710]%N.
Definition diamond : str := [226; 8212; 8224]%N.
Definition circle : str := [226; 8212]%N.

(** The weights of the weighted average. *)
Definition ma7_weights : list Q :=
  [5 # 100; 1 # 10; 1 # 10; 15 # 100; 15 # 100; 2 # 10; 25 # 100]%Q.

(** The [except Exception as e] clause. *)
Definition error_box (out : list str) (e : exn) : run :=
  let out :=
    out ++ [double_down_right ++ repeat double_horizontal 3 ++ lit " ERROR "
            ++ repeat double_horizontal 3 ++ double_down_left] in
  let out :=
    out ++ [double_vertical ++ lit " " ++ format_left (str_of_exn e) 11
            ++ lit " " ++ double_vertical] in
  let out :=
    out ++ [double_up_right ++ repeat double_horizontal 13
            ++ double_up_left] in
  {| printed := out; end_of_run := Returned |}.

(** The statements of the [try] block after the fetch. *)
Definition report (out : list str) (orders : list order) : run :=
  match WooCommerceAnalytics.aggregate_daily_sales orders with
  | Raise e => error_box out e
  | Ok daily_sales =>
      let out := out ++ [processing] in
      let sales := daily_sales.*2 in
      let days_to_fetch := 30 in
      let days_ago := range_down (days_to_fetch - 1) (-1) in
      match
        ma7 ← WooCommerceAnalytics.calculate_moving_average
                 (inject_Z <$> sales) 7 None;
        ma7_weighted ← WooCommerceAnalytics.calculate_moving_average
                          (inject_Z <$> sales) 7 (Some ma7_weights);
        RetroASCIIGraph.draw RetroASCIIGraph.__init__
          [ ((λ n, Some (inject_Z n)) <$> sales, lit "Daily Sales",
             full_block);
            (ma7, lit "7-day Moving Average", diamond);
            (ma7_weighted, lit "7-day Weighted MA", circle) ]
          days_ago
      with
      | Raise e => error_box out e
      | Ok visualization =>
          {| printed := out ++ [visualization; press_any_key];
             end_of_run := Returned |}
      end
  end.

(** [main], given the object parsed from [keys.json]. *)
Definition main (fuel : nat) (keys : list (str * str)) : run :=
  let out := [print_retro_header] in
  match dict_get keys (lit "url") with
  | None => {| printed := out; end_of_run := KeyError (lit "url") |}
  | Some url =>
  match dict_get keys (lit "consumer_key") with
  | None => {| printed := out; end_of_run := KeyError (lit "consumer_key") |}
  | Some consumer_key =>
  match dict_get keys (lit "consumer_secret") with
  | None =>
      {| printed := out; end_of_run := KeyError (lit "consumer_secret") |}
  | Some consumer_secret =>
      let wc := __init__ url consumer_key consumer_secret in
      let out := out ++ [fetching] in
      let days_to_fetch := 30 in
      match get_sales_data fuel wc days_to_fetch with
      | None => {| printed := out; end_of_run := Unfinished |}
      | Some (Raise e) => error_box out e
      | Some (Ok orders) => report out orders
      end
  end end end.

End client.
End Report.

(** ** A shop for the examples

    An instance of [Shop] on the calendar of the examples: the clock
    stands at a given day, at midnight, and the shop answers a request for
    page [p] with [pages p], whatever the other parameters. *)

Module SampleShop.
Import Py IsoCalendar.

Definition previous_day (d : date) : date :=
  if bool_decide (1 < day d)
  then {| year := year d; month := month d; day := day d - 1 |}
  else if bool_decide (1 < month d)
  then {| year := year d; month := month d - 1;
          day := days_in_month (year d) (month d - 1) |}
  else {| year := year d - 1; month := 12; day := 31 |}.

Definition next_day (d : date) : date :=
  if bool_decide (day d < days_in_month (year d) (month d))
  then {| year := year d; month := month d; day := day d + 1 |}
  else if bool_decide (month d < 12)
  then {| year := year d; month := month d + 1; day := 1 |}
  else {| year := year d + 1; month := 1; day := 1 |}.

Definition shift (d : date) (n : Z) : date :=
  if bool_decide (0 ≤ n) then Nat.iter (Z.to_nat n) previous_day d
  else Nat.iter (Z.to_nat (- n)) next_day d.

Definition shop (today : date) (pages : Z → result (list order))
  : @Shop calendar :=
  @Build_Shop calendar str
    (λ url _ _ _ _, url)
    (λ _ _ q, pages (page q))
    today
    shift
    (λ d, format d (lit "%Y-%m-%dT00:00:00")).

(** Three orders on two pages, and a shop that never runs out of
    pages. *)
Definition two_pages (p : Z) : result (list order) :=
  if bool_decide (p = 1)
  then Ok [ {| date_created := lit "2024-01-02T09:30:00" |};
            {| date_created := lit "2024-01-01T17:05:10" |} ]
  else if bool_decide (p = 2)
  then Ok [ {| date_created := lit "2024-01-02T11:00:00" |} ]
  else Ok [].

Definition endless (p : Z) : result (list order) :=
  Ok [ {| date_created := lit "2024-01-02T09:30:00" |} ].

Definition today : date := {| year := 2024; month := 1; day := 15 |}.

Definition keys : list (str * str) :=
  [ (lit "url", lit "https://shop.example");
    (lit "consumer_key", lit "ck");
    (lit "consumer_secret", lit "cs") ].

End SampleShop.

(** ** The specification's vocabulary *)

Module Spec.

(** [l[k]] for an index inside the list. *)
Definition item (l : list Q) (k : Z) : Q := default 0%Q (l !! Z.to_nat k).

(** The simple moving average: [window] copies of [1/window]. *)
Definition uniform_weights (window : Z) : list Q :=
  replicate (Z.to_nat window) (1 / inject_Z window)%Q.

Definition weights_in_effect (window : Z) (weights : option (list Q))
  : list Q :=
  default (uniform_weights window) weights.

(** A weight vector of the right length that sums to 1 within 1e-10. *)
Definition valid_weights (window : Z) (ws : list Q) : Prop :=
  Py.len ws = window ∧ (Qabs (Py.sum ws - 1) <= WooCommerceAnalytics.tol)%Q.

(** [round(Σ_k weights[k] * data[i-window+1+k], 2)] *)
Definition weighted_average (ws data : list Q) (window i : Z) : Q :=
  Py.round2
    (Py.sum ((λ k, item ws k * item data (i - window + 1 + k))%Q
               <$> Py.range window)).

(** The entry the loop of [calculate_moving_average] appends at index
    [i]. *)
Definition loop_entry (data : list Q) (window : Z) (ws : list Q) (i : Z)
  : option Q :=
  if bool_decide (i < window - 1) then None
  else Some (Py.round2
               (Py.sum (zip_with Qmult ws
                          (Py.slice data (i - window + 1) (i + 1))))).

(** The row the specification gives a value:
    [height - 1 - floor((min(x, maxY) / maxY) * (height - 1))]. *)
Definition row_of (height maxY : Z) (x : Q) : Z :=
  height - 1
  - Py.floor (Qmin x (inject_Z maxY) / inject_Z maxY
              * inject_Z (height - 1))%Q.

(** The same with the truncation [int] that the program applies. *)
Definition int_row (height maxY : Z) (x : Q) : Z :=
  height - 1
  - Py.int (Py.min x (inject_Z maxY) / inject_Z maxY
            * inject_Z (height - 1))%Q.

(** A canvas of [h] rows and [w] columns. *)
Definition has_size (g : canvas) (h w : Z) : Prop :=
  Py.len g = h ∧ Forall (λ row : list Py.str, Py.len row = w) g.

(** The rows [normalize_data] gives the series of a call of [draw]. *)
Definition normalized (h m : Z) (data : list (option Q))
  : list (option Z) :=
  (λ x : option Q, int_row h m <$> x) <$> data.

Section orders.
Context `{Datetime}.

(** The timestamp of the order parses. *)
Definition parses (o : order) : Prop :=
  is_ok (fromisoformat (date_created o)).

(** The number of orders created on day [k]. *)
Definition orders_on (k : Py.str) (orders : list order) : Z :=
  Py.len (filter (λ o, WooCommerceAnalytics.order_date o = Ok k) orders).
End orders.

(** The number of occurrences of a key in a list of keys. *)
Definition occurrences (k : Py.str) (ks : list Py.str) : Z :=
  Py.len (filter (λ k', k' = k) ks).

(** [sum(d.values())] *)
Definition total (d : list (Py.str * Z)) : Z := foldr Z.add 0 d.*2.

Section fetch.
Context `{Shop}.

(** The request [get_sales_data(days)] sends for page [p]. *)
Definition request (days p : Z) : orders_query :=
  {| after := isoformat (minus_days now days);
     before := isoformat now;
     per_page := 100;
     page := p;
     status := Py.lit "completed" |}.

(** The answer of the shop to it. *)
Definition answer (self : Report.t) (days p : Z) : result (list order) :=
  get_json (Report.wcapi self) (Py.lit "orders") (request days p).
End fetch.

(** The line of the chart for one row of the canvas: [y_value] in two
    columns between the left border and the axis, then the cells. *)
Definition chart_line (y_value : Z) (cells : list Py.str) : Py.str :=
  Glyph.double_vertical ++ Py.lit " " ++ Py.format_d y_value 2 ++ Py.lit " "
  ++ Glyph.light_vertical ++ Py.lit " " ++ mjoin cells ++ Py.lit " "
  ++ Glyph.double_vertical.

(** [graph[y][x]] for a cell of the canvas. *)
Definition cell (g : canvas) (y x : Z) : option Py.str :=
  row ← g !! Z.to_nat y; row !! Z.to_nat x.

(** The points of one series in the order of its indices: row, column and
    symbol of every value that has a row. *)
Definition series_marks (x_scale : Q) (symbol : Py.str)
    (rows : list (option Z)) : list (Z * Z * Py.str) :=
  omap (λ '(i, y), r ← y; Some (r, Py.int (inject_Z i * x_scale), symbol))
    (Py.enumerate rows).

(** The points of all the series of a call of [draw], series after
    series. *)
Definition marks (h m : Z) (x_scale : Q) (data_series : list series)
  : list (Z * Z * Py.str) :=
  '(data, _, symbol) ← data_series;
  series_marks x_scale symbol (normalized h m data).

(** What a cell shows once the points have been written in order over a
    background: the symbol of the last point that falls on the cell, or
    the background when none does. *)
Definition shown (background : Py.str) (ms : list (Z * Z * Py.str))
    (y x : Z) : Py.str :=
  default background
    (last (omap (λ '(r, c, symbol),
                   if bool_decide (r = y ∧ c = x) then Some symbol else None)
             ms)).

End Spec.

Import WooCommerceAnalytics RetroASCIIGraph.

(** * Properties *)

(** ** Moving averages *)

Section moving_average.
Import Spec.

Variable data : list Q.
Variable window : Z.
Hypothesis window_pos : 1 ≤ window.

Local Abbreviation entry := (loop_entry data window).

Lemma loop_appends ws l acc :
  fold_left (moving_average_step data window ws) l acc
  = acc ++ (entry ws <$> l).
Proof.
  revert acc; induction l as [|i l IH]; intros acc; simpl.
  - by rewrite app_nil_r.
  - rewrite IH. unfold moving_average_step, loop_entry.
    case_bool_decide; by rewrite <- app_assoc.
Qed.

Lemma repeat_singleton {A} (x : A) n :
  Py.repeat [x] n = replicate (Z.to_nat n) x.
Proof.
  unfold Py.repeat. induction (Z.to_nat n) as [|k IH]; simpl; congruence.
Qed.

Lemma effective_weights_spec weights :
  effective_weights window weights = Ok (weights_in_effect window weights).
Proof.
  destruct weights as [ws|]; [done|]. simpl. unfold Py.truediv.
  destruct (Qeq_bool (inject_Z window) 0) eqn:E.
  - apply Qeq_bool_eq in E. unfold Qeq in E; simpl in E. lia.
  - simpl. by rewrite repeat_singleton.
Qed.

Lemma sum_from (xs : list Q) (acc : Q) :
  (fold_left Qplus xs acc == acc + Py.sum xs)%Q.
Proof.
  unfold Py.sum. revert acc. induction xs as [|x xs IH]; intros acc; simpl.
  - ring.
  - rewrite IH, (IH (0 + x)%Q). ring.
Qed.

Lemma sum_replicate (n : nat) (x : Q) :
  (Py.sum (replicate n x) == inject_Z (Z.of_nat n) * x)%Q.
Proof.
  induction n as [|n IH].
  - unfold Py.sum; simpl. ring.
  - unfold Py.sum; simpl replicate; simpl fold_left.
    rewrite sum_from, IH, Nat2Z.inj_succ. unfold Z.succ.
    rewrite inject_Z_plus. ring.
Qed.

Lemma uniform_weights_valid : valid_weights window (uniform_weights window).
Proof.
  unfold valid_weights, uniform_weights. split.
  - unfold Py.len. rewrite length_replicate. lia.
  - rewrite sum_replicate, Z2Nat.id by lia.
    assert (E : (inject_Z window * (1 / inject_Z window) - 1 == 0)%Q).
    { field. intros E. unfold Qeq in E; simpl in E. lia. }
    rewrite E. done.
Qed.

Lemma gt_false_iff (a b : Q) : Py.gt a b = false ↔ (a <= b)%Q.
Proof.
  unfold Py.gt. rewrite negb_false_iff. apply Qle_bool_iff.
Qed.

Lemma gt_true_iff (a b : Q) : Py.gt a b = true ↔ (b < a)%Q.
Proof.
  unfold Py.gt. rewrite negb_true_iff. split.
  - intros E. apply Qnot_le_lt. intros Hle.
    apply Qle_bool_iff in Hle. congruence.
  - intros Hlt. destruct (Qle_bool a b) eqn:E; [|done].
    apply Qle_bool_iff in E. exfalso. by apply (Qlt_not_le b a).
Qed.

(** What the function computes, in one equation per outcome. *)
Lemma calculate_moving_average_cases weights :
  let ws := weights_in_effect window weights in
  calculate_moving_average data window weights =
    if bool_decide (Py.len ws ≠ window) then Raise InvalidWeightLength
    else if Py.gt (Qabs (Py.sum ws - 1)) tol then Raise WeightsNotNormalized
    else Ok (entry ws <$> Py.range (Py.len data)).
Proof.
  intros ws. unfold calculate_moving_average.
  rewrite effective_weights_spec. simpl. fold ws.
  repeat case_match; try done. by rewrite loop_appends.
Qed.

Lemma lookup_entries ws (i : Z) :
  0 ≤ i < Py.len data →
  (entry ws <$> Py.range (Py.len data)) !! Z.to_nat i = Some (entry ws i).
Proof.
  intros Hi. rewrite list_lookup_fmap. unfold Py.range.
  rewrite lookup_seqZ_lt by lia. simpl. do 2 f_equal. lia.
Qed.

(** Inside the data the slice is the window ending at [i], and zipping it
    with the weights pairs [weights[k]] with [data[i-window+1+k]]. *)
Lemma window_products ws i :
  Py.len ws = window →
  window - 1 ≤ i < Py.len data →
  zip_with Qmult ws (Py.slice data (i - window + 1) (i + 1))
  = (λ k, item ws k * item data (i - window + 1 + k))%Q
      <$> Py.range window.
Proof.
  intros Hlen Hi. unfold Py.slice, Py.slice_bound, Py.len in *.
  rewrite !bool_decide_eq_false_2 by lia.
  rewrite !Z.min_l by lia.
  replace (i + 1 - (i - window + 1)) with window by lia.
  apply list_eq. intros k.
  rewrite lookup_zip_with, list_lookup_fmap. unfold Py.range.
  destruct (decide (Z.of_nat k < window)) as [Hk|Hk].
  - rewrite lookup_seqZ_lt, lookup_take_lt, lookup_drop by lia.
    destruct (lookup_lt_is_Some_2 ws k) as [w Hw]; [lia|].
    destruct (lookup_lt_is_Some_2 data (Z.to_nat (i - window + 1) + k))
      as [v Hv]; [lia|].
    rewrite Hw, Hv. simpl. unfold item.
    replace (Z.to_nat (0 + Z.of_nat k)) with k by lia.
    replace (Z.to_nat (i - window + 1 + (0 + Z.of_nat k)))
      with (Z.to_nat (i - window + 1) + k)%nat by lia.
    by rewrite Hw, Hv.
  - rewrite lookup_seqZ_ge by lia.
    rewrite (lookup_ge_None_2 ws k) by lia. done.
Qed.

Lemma calculate_moving_average_valid weights :
  valid_weights window (weights_in_effect window weights) →
  calculate_moving_average data window weights
  = Ok (entry (weights_in_effect window weights) <$> Py.range (Py.len data)).
Proof.
  intros [Hlen Hsum]. rewrite calculate_moving_average_cases. cbv zeta.
  rewrite bool_decide_eq_false_2 by (intros ?; contradiction).
  apply gt_false_iff in Hsum. by rewrite Hsum.
Qed.

End moving_average.







(** The end-to-end scenario: seven daily counts, unweighted window of 7. *)
Example moving_average_of_a_week :
  calculate_moving_average (inject_Z <$> [1; 2; 3; 4; 5; 6; 7]) 7 None
  = Ok [None; None; None; None; None; None; Some 4%Q].
Proof. reflexivity. Qed.

(** ** The coordinate normalizer *)

Lemma min_is_Qmin (a b : Q) : Py.min a b = Qmin a b.
Proof.
  unfold Py.min, Py.gt, Qle_bool, Qmin, GenericMinMax.gmin, Qcompare.
  destruct (Z.leb_spec (Qnum a * QDen b) (Qnum b * QDen a)) as [Hle|Hlt];
    simpl.
  - destruct (Z.compare_spec (Qnum a * QDen b) (Qnum b * QDen a));
      [done | done | lia].
  - apply Z.lt_gt in Hlt. unfold Z.gt in Hlt. by rewrite Hlt.
Qed.

Lemma int_is_floor (q : Q) : (0 <= q)%Q → Py.int q = Py.floor q.
Proof.
  destruct q as [n d]. unfold Qle, Py.int, Py.floor, Qfloor. simpl.
  intros Hn. apply Z.quot_div_nonneg; lia.
Qed.

Lemma mapM_total {A B} (f : A → result B) (g : A → B) (l : list A) :
  (∀ x, f x = Ok (g x)) → mapM f l = Ok (g <$> l).
Proof.
  intros Hf. induction l as [|x l IH]; [done|].
  simpl. rewrite Hf. simpl. rewrite IH. done.
Qed.

Lemma normalize_value_init (x : option Q) :
  normalize_value __init__ x = Ok (Spec.int_row 20 20 <$> x).
Proof. by destruct x. Qed.

Lemma normalize_data_init (data : list (option Q)) :
  normalize_data __init__ data = Ok (Spec.normalized 20 20 data).
Proof. apply mapM_total, normalize_value_init. Qed.

Lemma scaled_nonneg (x : Q) :
  (0 <= x)%Q → (0 <= Qmin x 20 / 20 * 19)%Q.
Proof.
  intros Hx. apply Qmult_le_0_compat; [|done].
  apply Qle_shift_div_l; [done|]. rewrite Qmult_0_l.
  apply Q.min_glb; done.
Qed.

Lemma int_row_is_row_of (x : Q) :
  (0 <= x)%Q → Spec.int_row 20 20 x = Spec.row_of 20 20 x.
Proof.
  intros Hx. unfold Spec.int_row, Spec.row_of. f_equal.
  rewrite min_is_Qmin. apply int_is_floor. by apply scaled_nonneg.
Qed.


Example normalize_data_sample :
  normalize_data __init__
    [Some 20%Q; Some 0%Q; Some (57 # 2)%Q; None; Some 3%Q; Some (-1)%Q;
     Some (-2)%Q]
  = Ok [Some 0; Some 19; Some 0; None; Some 17; Some 19; Some 20].
Proof. reflexivity. Qed.

(** ** The renderer *)

Lemma bind_Ok_l {A B} (a : A) (f : A → result B) : Ok a ≫= f = f a.
Proof. done. Qed.

Lemma truediv_int (a : Q) (b : Z) :
  Py.truediv a (inject_Z b)
  = if bool_decide (b = 0) then Raise ZeroDivisionError
    else Ok (a / inject_Z b)%Q.
Proof.
  unfold Py.truediv. destruct (Qeq_bool (inject_Z b) 0) eqn:E.
  - apply Qeq_bool_eq in E. unfold Qeq in E; simpl in E.
    rewrite bool_decide_eq_true_2 by lia. done.
  - apply Qeq_bool_neq in E. rewrite bool_decide_eq_false_2; [done|].
    intros ->. by apply E.
Qed.

Lemma normalized_series_init (data_series : list series) :
  mapM (λ '(data, label, symbol),
          nd ← normalize_data __init__ data; mret (nd, label, symbol))
    data_series
  = Ok ((λ '(data, label, symbol),
           (Spec.normalized 20 20 data, label, symbol)) <$> data_series).
Proof.
  apply (mapM_total _ (λ '(data, label, symbol),
                         (Spec.normalized 20 20 data, label, symbol))).
  intros [[data label] symbol]. by rewrite normalize_data_init.
Qed.

(** The outcome of the first half of [draw] on a fresh instance. *)
Lemma plot_init (data_series : list series) (days_ago : list Z) :
  plot __init__ data_series days_ago
  = if bool_decide (Py.len days_ago - 1 = 0) then Raise ZeroDivisionError
    else
      let x_scale := (inject_Z 99 / inject_Z (Py.len days_ago - 1))%Q in
      Ok (fold_left (plot_series __init__ x_scale)
            ((λ '(data, label, symbol),
                (Spec.normalized 20 20 data, label, symbol)) <$> data_series)
            (blank_graph __init__),
          x_scale).
Proof.
  unfold plot. rewrite normalized_series_init, bind_Ok_l, truediv_int.
  by case_bool_decide.
Qed.

Lemma render_init_returns (data_series : list series) (days_ago : list Z)
    (graph : canvas) (x_scale : Q) :
  is_ok (render __init__ data_series days_ago graph x_scale).
Proof.
  unfold render.
  assert (E : ∃ c, Py.format_center (Py.lit "Days Ago") (width __init__) = Ok c)
    by (eexists; reflexivity).
  destruct E as [c ->]. eexists. reflexivity.
Qed.

(** [draw] fails exactly on a label list of length one. *)
Lemma draw_returns (data_series : list series) (days_ago : list Z) :
  Py.len days_ago ≠ 1 → is_ok (draw __init__ data_series days_ago).
Proof.
  intros Hlen. unfold draw. rewrite plot_init.
  rewrite bool_decide_eq_false_2 by lia. cbv zeta. rewrite bind_Ok_l.
  apply render_init_returns.
Qed.

(** Plotting keeps the size of the canvas. *)
Lemma plot_point_size self x_scale symbol graph p h w :
  Spec.has_size graph h w →
  Spec.has_size (plot_point self x_scale symbol graph p) h w.
Proof.
  intros [Hh Hw]. unfold plot_point. destruct (p.2) as [y|]; [|done].
  case_bool_decide; [|done]. unfold Spec.has_size, Py.len in *. split.
  - by rewrite length_alter.
  - apply Forall_alter; [done|]. intros row _ Hrow.
    by rewrite length_insert.
Qed.

Lemma plot_series_size self x_scale graph s h w :
  Spec.has_size graph h w →
  Spec.has_size (plot_series self x_scale graph s) h w.
Proof.
  destruct s as [[nd label] symbol]. unfold plot_series.
  generalize (Py.enumerate nd). intros l. revert graph.
  induction l as [|p l IH]; intros graph Hg; [done|].
  simpl. apply IH. by apply plot_point_size.
Qed.

Lemma plot_all_size self x_scale graph ss h w :
  Spec.has_size graph h w →
  Spec.has_size (fold_left (plot_series self x_scale) ss graph) h w.
Proof.
  revert graph. induction ss as [|s ss IH]; intros graph Hg; [done|].
  simpl. apply IH. by apply plot_series_size.
Qed.

Lemma blank_graph_size self :
  0 ≤ height self → 0 ≤ width self →
  Spec.has_size (blank_graph self) (height self) (width self).
Proof.
  intros Hh Hw. unfold blank_graph, Spec.has_size, Py.len. split.
  - rewrite length_replicate. lia.
  - apply Forall_replicate. rewrite length_replicate. lia.
Qed.

(** C5, as the program has it.  Whatever the label list, the canvas that
    [draw] plots on has the 100 columns and the 20 rows fixed by the
    constructor. *)
Theorem canvas_size_fixed (data_series : list series) (days_ago : list Z)
    (graph : canvas) (x_scale : Q) :
  plot __init__ data_series days_ago = Ok (graph, x_scale) →
  width __init__ = 100 ∧ height __init__ = 20
  ∧ Spec.has_size (blank_graph __init__) 20 100
  ∧ Spec.has_size graph 20 100.
Proof.
  rewrite plot_init. case_bool_decide; [done|]. intros [= <- _].
  split_and!; [done | done | |].
  - by apply (blank_graph_size __init__).
  - apply plot_all_size. by apply (blank_graph_size __init__).
Qed.

Lemma canvas_size_fixed_witness :
  width __init__ = 100 ∧ height __init__ = 20
  ∧ Spec.has_size (blank_graph __init__) 20 100
  ∧ Spec.has_size
      (fold_left (plot_series __init__ (inject_Z 99 / inject_Z 1)%Q) []
         (blank_graph __init__)) 20 100.
Proof.
  apply (canvas_size_fixed [] [0; 1] _ (inject_Z 99 / inject_Z 1)%Q).
  reflexivity.
Defined.

(** C5, as the claim has it, fails: with two labels the canvas has 100
    columns, not [2 * 3 - 1]. *)
Lemma canvas_width_not_from_labels :
  ∃ graph x_scale,
    plot __init__ [] [0; 1] = Ok (graph, x_scale)
    ∧ Spec.has_size graph 20 100
    ∧ ¬ Spec.has_size graph 20 (Py.len [0; 1] * 3 - 1).
Proof.
  do 2 eexists. split; [reflexivity|]. split.
  - by apply (blank_graph_size __init__).
  - intros [_ Hw]. apply Forall_inv in Hw. vm_compute in Hw. discriminate.
Qed.

(** C6.  A label list with a single label makes [draw] divide by
    [len(days_ago) - 1 = 0], whatever the series. *)
Theorem draw_single_label_raises (data_series : list series) (day : Z) :
  draw __init__ data_series [day] = Raise ZeroDivisionError.
Proof. unfold draw. by rewrite plot_init. Qed.

Example draw_one_label : draw __init__ [] [0] = Raise ZeroDivisionError.
Proof. reflexivity. Qed.

(** A point is written only when its column and its row are both on the
    canvas; any other point leaves the canvas untouched. *)
Lemma plot_point_outside self x_scale symbol graph (i y : Z) :
  ¬ (0 ≤ Py.int (inject_Z i * x_scale) < width self ∧ 0 ≤ y < height self) →
  plot_point self x_scale symbol graph (i, Some y) = graph.
Proof.
  intros Hout. unfold plot_point. simpl.
  by rewrite bool_decide_eq_false_2.
Qed.

(** The superseded [draw] keeps the size of its canvas too. *)
Lemma superseded_plot_point_size self width x_scale symbol graph p h w :
  Spec.has_size graph h w →
  Spec.has_size (Superseded.plot_point self width x_scale symbol graph p) h w.
Proof.
  intros [Hh Hw]. unfold Superseded.plot_point.
  destruct (p.2) as [y|]; [|done].
  case_bool_decide; [|done]. unfold Spec.has_size, Py.len in *. split.
  - by rewrite length_alter.
  - apply Forall_alter; [done|]. intros row _ Hrow.
    by rewrite length_insert.
Qed.

Lemma superseded_plot_series_size self width x_scale graph s h w :
  Spec.has_size graph h w →
  Spec.has_size (Superseded.plot_series self width x_scale graph s) h w.
Proof.
  destruct s as [[nd label] symbol]. unfold Superseded.plot_series.
  generalize (Py.enumerate nd). intros l. revert graph.
  induction l as [|p l IH]; intros graph Hg; [done|].
  simpl. apply IH. by apply superseded_plot_point_size.
Qed.

(** It did size the canvas from the labels: with at least one label,
    [len(days_ago) * 3 - 1] columns. *)
Lemma superseded_canvas_width (data_series : list series)
    (days_ago : list Z) (graph : canvas) :
  1 ≤ Py.len days_ago →
  Superseded.plot Superseded.__init__ data_series days_ago = Ok graph →
  Spec.has_size graph 20 (Py.len days_ago * 3 - 1).
Proof.
  intros Hlen. unfold Superseded.plot.
  destruct (mapM _ data_series) as [ns|e]; [|done]. rewrite bind_Ok_l.
  destruct (Py.truediv _ _) as [x_scale|e]; [|done]. rewrite bind_Ok_l.
  intros [= <-].
  set (w := Superseded.draw_width Superseded.__init__ days_ago).
  assert (Hblank : Spec.has_size
            (Superseded.blank_graph Superseded.__init__ w) 20
            (Py.len days_ago * 3 - 1)).
  { unfold Spec.has_size, Superseded.blank_graph, Py.len. split.
    - by rewrite length_replicate.
    - apply Forall_replicate. rewrite length_replicate.
      unfold w, Superseded.draw_width, Py.len in *. simpl. lia. }
  revert Hblank. generalize (Superseded.blank_graph Superseded.__init__ w).
  induction ns as [|s ns IH]; intros g Hg; [done|].
  simpl. apply IH. by apply superseded_plot_series_size.
Qed.

(** ** Negative values *)

Lemma min_below (x : Q) (m : Z) : (x <= inject_Z m)%Q → Py.min x (inject_Z m) = x.
Proof.
  intros Hx. unfold Py.min, Py.gt.
  by rewrite (proj2 (Qle_bool_iff _ _) Hx).
Qed.

Lemma int_le_neg_one (q : Q) : (q <= -1)%Q → Py.int q ≤ -1.
Proof.
  destruct q as [n d]. unfold Qle, Py.int. simpl. intros Hn.
  replace n with (- - n) by lia. rewrite Z.quot_opp_l by lia.
  assert (1 ≤ (- n) `quot` Z.pos d); [|lia].
  apply Z.quot_le_lower_bound; lia.
Qed.

Lemma int_small_negative (q : Q) : (-1 < q)%Q → (q <= 0)%Q → Py.int q = 0.
Proof.
  destruct q as [n d]. unfold Qlt, Qle, Py.int. simpl. intros Hlo Hhi.
  replace n with (- - n) by lia. rewrite Z.quot_opp_l by lia.
  rewrite Z.quot_small by lia. done.
Qed.

Lemma int_row_below_scale (x : Q) :
  (x <= -(20 # 19))%Q → 20 ≤ Spec.int_row 20 20 x.
Proof.
  intros Hx. unfold Spec.int_row.
  rewrite min_below by (apply Qle_trans with (-(20 # 19))%Q; done).
  assert (Py.int (x / inject_Z 20 * inject_Z (20 - 1)) ≤ -1); [|lia].
  apply int_le_neg_one. destruct x as [n d].
  unfold Qle, Qdiv, Qmult, Qinv in *. simpl in *. lia.
Qed.

Lemma int_row_bottom (x : Q) :
  (-(20 # 19) < x)%Q → (x < 0)%Q → Spec.int_row 20 20 x = 19.
Proof.
  intros Hlo Hhi. unfold Spec.int_row.
  rewrite min_below by (apply Qlt_le_weak, Qlt_trans with 0%Q; done).
  rewrite int_small_negative; [done | |]; destruct x as [n d];
    unfold Qle, Qlt, Qdiv, Qmult, Qinv in *; simpl in *; lia.
Qed.

(** A point whose row is off the canvas leaves the canvas as it is, like an
    undefined one. *)
Lemma plot_point_off self x_scale symbol graph (i y : Z) :
  ¬ (0 ≤ y < height self) →
  plot_point self x_scale symbol graph (i, Some y)
  = plot_point self x_scale symbol graph (i, None).
Proof.
  intros Hy. unfold plot_point. simpl.
  rewrite bool_decide_eq_false_2; [done | tauto].
Qed.

Lemma plot_series_skips self x_scale graph (nd1 nd2 : list (option Z))
    label symbol :
  Forall2 (λ a b, a = b ∨ b = None ∧ ∃ y, a = Some y ∧ ¬ (0 ≤ y < height self))
    nd1 nd2 →
  plot_series self x_scale graph (nd1, label, symbol)
  = plot_series self x_scale graph (nd2, label, symbol).
Proof.
  intros Hnd. unfold plot_series, Py.enumerate, Py.len.
  rewrite <- (Forall2_length _ _ _ Hnd).
  generalize (Py.range (Z.of_nat (length nd1))). intros idx.
  revert idx graph.
  induction Hnd as [|a b nd1 nd2 Hab _ IH]; intros idx graph.
  - done.
  - destruct idx as [|i idx]; [done|]. simpl.
    destruct Hab as [->|(-> & y & -> & Hy)]; [apply IH|].
    rewrite plot_point_off by done. apply IH.
Qed.

Lemma normalized_without (x : Q) (data : list (option Q)) (i : nat) :
  data !! i = Some (Some x) →
  ¬ (0 ≤ Spec.int_row 20 20 x < 20) →
  Forall2 (λ a b, a = b ∨ b = None ∧ ∃ y, a = Some y ∧ ¬ (0 ≤ y < 20))
    (Spec.normalized 20 20 data)
    (Spec.normalized 20 20 (<[i := None]> data)).
Proof.
  intros Hi Hx. revert i Hi.
  induction data as [|v data IH]; intros i Hi; [done|].
  destruct i as [|i]; simpl in *.
  - injection Hi as ->. constructor; [right; eauto|].
    apply Forall_Forall2_diag, Forall_forall. auto.
  - constructor; [by left | by apply IH].
Qed.

Lemma render_reads_legend self (before after : list series)
    (data data' : list (option Q)) label symbol days_ago graph x_scale :
  render self (before ++ (data, label, symbol) :: after) days_ago graph x_scale
  = render self (before ++ (data', label, symbol) :: after) days_ago graph
      x_scale.
Proof. unfold render. by rewrite !fold_left_app. Qed.




(** ** The daily aggregator *)

Section dictionaries.
Import Py.
Context {V : Type}.
Implicit Types (d : list (str * V)) (k : str) (v : V).

Lemma dict_get_None d k : dict_get d k = None ↔ k ∉ d.*1.
Proof.
  induction d as [|[k' v'] d IH]; csimpl.
  - split; [intros _; apply not_elem_of_nil | done].
  - rewrite not_elem_of_cons. case_decide as Hk.
    + split; [done | intros [? _]; congruence].
    + rewrite IH. split; [by split; [congruence|] | by intros [_ ?]].
Qed.

Lemma dict_get_Some d k v :
  NoDup d.*1 → dict_get d k = Some v ↔ (k, v) ∈ d.
Proof.
  induction d as [|[k' v'] d IH]; csimpl; intros Hd.
  - split; [done | intros Hin; by apply elem_of_nil in Hin].
  - apply NoDup_cons in Hd as [Hk' Hd]. rewrite elem_of_cons.
    case_decide as Hk.
    + subst k'. split; [intros [= ->]; by left|].
      intros [[= ->]|Hin]; [done|]. exfalso. apply Hk'.
      apply list_elem_of_fmap. by exists (k, v).
    + rewrite IH by done. split; [by right|].
      intros [[= -> ->]|Hin]; [done | done].
Qed.

Lemma dict_get_set d k v k' :
  dict_get (dict_set d k v) k'
  = if decide (k = k') then Some v else dict_get d k'.
Proof.
  induction d as [|[k0 v0] d IH]; csimpl.
  - done.
  - destruct (decide (k0 = k)) as [->|Hk0]; csimpl.
    + by repeat case_decide.
    + rewrite IH. by repeat case_decide; subst.
Qed.

Lemma dict_set_keys d k v :
  (dict_set d k v).*1 = if decide (k ∈ d.*1) then d.*1 else d.*1 ++ [k].
Proof.
  induction d as [|[k0 v0] d IH]; csimpl.
  - done.
  - destruct (decide (k0 = k)) as [->|Hk0]; csimpl.
    + clear IH. case_decide as Hk; [done|]. exfalso. apply Hk. by left.
    + rewrite IH. clear IH. destruct (decide (k ∈ d.*1)) as [Hin|Hin].
      * case_decide as Hk; [done|]. exfalso. apply Hk. by right.
      * case_decide as Hk; [|done].
        apply elem_of_cons in Hk as [->|Hk]; done.
Qed.

Lemma dict_set_fresh d k v : k ∉ d.*1 → dict_set d k v = d ++ [(k, v)].
Proof.
  induction d as [|[k0 v0] d IH]; csimpl; [done|].
  rewrite not_elem_of_cons. intros [Hne Hk].
  rewrite decide_False by done. by rewrite IH.
Qed.

Lemma dict_set_NoDup d k v : NoDup d.*1 → NoDup (dict_set d k v).*1.
Proof.
  intros Hd. rewrite dict_set_keys. case_decide; [done|].
  apply NoDup_app. split_and!; [done | | apply NoDup_singleton].
  intros k' Hk' ->%list_elem_of_singleton. done.
Qed.

(** [dict(items)] keeps a list of items whose keys are distinct. *)
Lemma dict_of_items_distinct (items : list (str * V)) :
  NoDup items.*1 → dict_of_items items = items.
Proof.
  unfold dict_of_items. intros Hitems.
  assert (Hgen : ∀ acc : list (str * V),
             NoDup (acc ++ items).*1 →
             fold_left (λ d '(k, v), dict_set d k v) items acc
             = acc ++ items); [|by apply (Hgen [])].
  clear Hitems. induction items as [|[k v] items IH]; intros acc Hnd; csimpl.
  - by rewrite app_nil_r.
  - rewrite fmap_app, fmap_cons in Hnd. csimpl in Hnd.
    apply NoDup_app in Hnd as Hnd'. destruct Hnd' as (_ & Hfresh & _).
    rewrite dict_set_fresh.
    + rewrite IH; rewrite <- app_assoc; [done|].
      by rewrite fmap_app.
    + intros Hk. apply (Hfresh k Hk). by left.
Qed.

End dictionaries.

Section tally.
Import Py Spec.
Implicit Types (d : list (str * Z)) (k : str) (ks : list str).

Lemma occurrences_cons k k0 ks :
  occurrences k (k0 :: ks)
  = (if decide (k0 = k) then 1 else 0) + occurrences k ks.
Proof.
  unfold occurrences, len. rewrite filter_cons.
  case_decide; csimpl; lia.
Qed.

Lemma occurrences_nonneg k ks : 0 ≤ occurrences k ks.
Proof. unfold occurrences, len. lia. Qed.

(** After the loop a day holds the number of times it was met, added to
    what it held before. *)
Lemma tally_get ks d k :
  dict_get (fold_left defaultdict_incr ks d) k
  = if decide (occurrences k ks = 0) then dict_get d k
    else Some (default 0 (dict_get d k) + occurrences k ks).
Proof.
  revert d. induction ks as [|k0 ks IH]; intros d; [done|].
  cbn [fold_left]. rewrite IH, occurrences_cons.
  unfold defaultdict_incr. rewrite dict_get_set.
  pose proof (occurrences_nonneg k ks).
  destruct (decide (k0 = k)) as [->|Hk]; repeat case_decide;
    try lia; try done; simpl; f_equal; lia.
Qed.

Lemma tally_NoDup ks d :
  NoDup d.*1 → NoDup (fold_left defaultdict_incr ks d).*1.
Proof.
  revert d. induction ks as [|k0 ks IH]; intros d Hd; [done|].
  cbn [fold_left]. apply IH. by apply dict_set_NoDup.
Qed.

Lemma total_set d k v :
  total (dict_set d k v) = total d - default 0 (dict_get d k) + v.
Proof.
  unfold total. induction d as [|[k0 v0] d IH]; csimpl; [lia|].
  case_decide; csimpl; [lia|]. rewrite IH. lia.
Qed.

Lemma tally_total ks d :
  total (fold_left defaultdict_incr ks d) = total d + len ks.
Proof.
  revert d. induction ks as [|k0 ks IH]; intros d.
  - unfold len. simpl. lia.
  - cbn [fold_left]. rewrite IH. unfold defaultdict_incr.
    rewrite total_set. unfold len. csimpl. lia.
Qed.

End tally.

Section sorting.
Import Py.
Implicit Types (d : list (str * Z)).

Local Abbreviation item_le := (λ a b : str * Z, ¬ item_lt b a).

#[local] Instance item_le_total : Total item_le.
Proof.
  intros a b. unfold item_lt.
  destruct (trichotomy lexico a b) as [Hab|[->|Hba]].
  - left. intros Hba. by apply (irreflexivity lexico a); trans b.
  - left. apply irreflexivity, _.
  - right. intros Hab. by apply (irreflexivity lexico a); trans b.
Qed.

#[local] Instance item_le_trans : Transitive item_le.
Proof.
  intros a b c Hab Hbc Hca. unfold item_lt in *.
  destruct (trichotomy lexico a b) as [Hlt|[->|Hlt]].
  - apply Hbc. by trans a.
  - by apply Hbc.
  - by apply Hab.
Qed.

#[local] Instance item_le_antisymm : AntiSymm eq item_le.
Proof.
  intros a b Hab Hba. unfold item_lt in *.
  by destruct (trichotomy lexico a b) as [Hlt|[->|Hlt]].
Qed.

Lemma sorted_StronglySorted d :
  StronglySorted (λ a b : str * Z, ¬ item_lt b a) (sorted d).
Proof. apply (StronglySorted_merge_sort _). Qed.

(** Two sorted lists of items with distinct keys and the same entries are
    the same list. *)
Lemma sorted_unique d1 d2 :
  NoDup d1.*1 → NoDup d2.*1 →
  (∀ kv, kv ∈ d1 ↔ kv ∈ d2) →
  sorted d1 = sorted d2.
Proof.
  intros H1 H2 Heq.
  apply (StronglySorted_unique (λ a b : str * Z, ¬ item_lt b a));
    [apply sorted_StronglySorted | apply sorted_StronglySorted |].
  unfold sorted. rewrite !merge_sort_Permutation.
  apply NoDup_Permutation; [by eapply NoDup_fmap_1 | by eapply NoDup_fmap_1 |].
  done.
Qed.

Lemma sorted_Permutation d : sorted d ≡ₚ d.
Proof. apply merge_sort_Permutation. Qed.

(** Sorting items with distinct keys puts the keys in strictly
    ascending order. *)
Lemma sorted_keys_ascending d :
  NoDup d.*1 → StronglySorted lexico (sorted d).*1.
Proof.
  intros Hd.
  assert (Hnd : NoDup (sorted d).*1) by by rewrite sorted_Permutation.
  assert (Hs : StronglySorted item_le (sorted d))
    by apply (StronglySorted_merge_sort _).
  clear Hd. induction Hs as [|a l Hs IH Ha]; csimpl in *; [constructor|].
  apply NoDup_cons in Hnd as [Hfresh Hnd]. constructor; [by apply IH|].
  apply Forall_fmap, Forall_forall. intros b Hb.
  rewrite Forall_forall in Ha. specialize (Ha b Hb). simpl.
  destruct (trichotomy lexico a.1 b.1) as [Hlt|[Heq|Hgt]]; [done | |].
  - exfalso. apply Hfresh. rewrite Heq. apply list_elem_of_fmap. eauto.
  - exfalso. apply Ha. by left.
Qed.

End sorting.

Section aggregator.
Import Py Spec.
Context `{Datetime}.
Implicit Types (o : order) (orders : list order) (d : list (str * Z)).

Local Abbreviation body :=
  (λ (daily_sales : list (str * Z)) o,
     date ← order_date o; mret (defaultdict_incr daily_sales date)).

Lemma order_date_parses o : parses o ↔ is_ok (order_date o).
Proof.
  unfold parses, order_date, is_ok.
  destruct (fromisoformat (date_created o)) as [dt|e]; simpl.
  - split; eauto.
  - split; intros [? [=]].
Qed.

Lemma order_date_raises o e :
  fromisoformat (date_created o) = Raise e → order_date o = Raise e.
Proof. unfold order_date. by intros ->. Qed.

Lemma loop_all_parse orders d :
  Forall parses orders →
  ∃ ks, Forall2 (λ o k, order_date o = Ok k) orders ks
        ∧ for_each body orders d = Ok (fold_left defaultdict_incr ks d).
Proof.
  intros Hall. revert d.
  induction Hall as [|o orders Ho _ IH]; intros d.
  - by exists [].
  - apply order_date_parses in Ho as [k Hk].
    destruct (IH (defaultdict_incr d k)) as (ks & Hks & Hloop).
    exists (k :: ks). split; [by constructor|].
    cbn [for_each]. by rewrite Hk.
Qed.

Lemma loop_first_failure before o after e d :
  Forall parses before →
  fromisoformat (date_created o) = Raise e →
  for_each body (before ++ o :: after) d = Raise e.
Proof.
  intros Hall Ho. revert d.
  induction Hall as [|o' before Ho' _ IH]; intros d.
  - cbn. by rewrite (order_date_raises _ _ Ho).
  - apply order_date_parses in Ho' as [k Hk]. cbn. rewrite Hk. apply IH.
Qed.

(** Either every timestamp parses or there is a first one that does
    not. *)
Lemma first_malformed orders :
  Forall parses orders
  ∨ ∃ before o after e,
      orders = before ++ o :: after ∧ Forall parses before
      ∧ fromisoformat (date_created o) = Raise e.
Proof.
  induction orders as [|o orders IH]; [by left|].
  destruct (fromisoformat (date_created o)) as [dt|e] eqn:Ho.
  - assert (parses o) by (by exists dt).
    destruct IH as [Hall|(before & o' & after & e & -> & Hall & Ho')].
    + left. by constructor.
    + right. exists (o :: before), o', after, e. by repeat constructor.
  - right. by exists [], o, orders, e.
Qed.

Lemma orders_on_occurrences orders ks k :
  Forall2 (λ o k, order_date o = Ok k) orders ks →
  orders_on k orders = occurrences k ks.
Proof.
  unfold orders_on, occurrences, len.
  induction 1 as [|o k' orders ks Hk _ IH]; [done|].
  rewrite !filter_cons, Hk.
  destruct (decide (k' = k)) as [->|Hne].
  - rewrite decide_True by done. csimpl. lia.
  - rewrite decide_False by congruence. done.
Qed.

Lemma aggregate_all_parse orders :
  Forall parses orders →
  ∃ ks, Forall2 (λ o k, order_date o = Ok k) orders ks
        ∧ aggregate_daily_sales orders
          = Ok (sorted (fold_left defaultdict_incr ks [])).
Proof.
  intros Hall. destruct (loop_all_parse orders [] Hall) as (ks & Hks & Hloop).
  exists ks. split; [done|]. unfold aggregate_daily_sales.
  rewrite Hloop, bind_Ok_l. unfold mret, result_ret. f_equal.
  apply dict_of_items_distinct. rewrite sorted_Permutation.
  apply tally_NoDup. constructor.
Qed.

(** The entries of the mapping are the days met, each with its count. *)
Lemma aggregate_entries orders ks k n :
  Forall2 (λ o k, order_date o = Ok k) orders ks →
  (k, n) ∈ sorted (fold_left defaultdict_incr ks [])
  ↔ n = orders_on k orders ∧ 0 < n.
Proof.
  intros Hks. rewrite sorted_Permutation.
  rewrite <- dict_get_Some by (apply tally_NoDup; constructor).
  rewrite tally_get, (orders_on_occurrences _ ks) by done.
  pose proof (occurrences_nonneg k ks).
  case_decide; simpl; split.
  - done.
  - intros [-> ?]. lia.
  - intros [= <-]. lia.
  - by intros [-> _].
Qed.

Lemma orders_on_Permutation orders orders' k :
  orders' ≡ₚ orders → orders_on k orders' = orders_on k orders.
Proof.
  intros Hp. unfold orders_on, len. by rewrite Hp.
Qed.

(** The mapping does not depend on the order of the input. *)
Lemma aggregate_Permutation orders orders' :
  Forall parses orders → orders' ≡ₚ orders →
  aggregate_daily_sales orders' = aggregate_daily_sales orders.
Proof.
  intros Hall Hp.
  assert (Hall' : Forall parses orders') by by rewrite Hp.
  destruct (aggregate_all_parse orders Hall) as (ks & Hks & ->).
  destruct (aggregate_all_parse orders' Hall') as (ks' & Hks' & ->).
  f_equal. apply sorted_unique; try (apply tally_NoDup; constructor).
  intros [k n].
  rewrite <- (sorted_Permutation (fold_left defaultdict_incr ks' [])).
  rewrite <- (sorted_Permutation (fold_left defaultdict_incr ks [])).
  rewrite (aggregate_entries orders' ks'), (aggregate_entries orders ks)
    by done.
  by rewrite (orders_on_Permutation orders orders').
Qed.

Lemma total_Permutation d1 d2 : d1 ≡ₚ d2 → total d1 = total d2.
Proof.
  unfold total. induction 1 as [|[??]|[??] [??]|]; csimpl; lia.
Qed.

End aggregator.



Example daily_sales_of_three_orders :
  aggregate_daily_sales (H := IsoCalendar.calendar)
    [ {| date_created := Py.lit "2024-01-01" |};
      {| date_created := Py.lit "2024-01-01" |};
      {| date_created := Py.lit "2024-01-02" |} ]
  = Ok [(Py.lit "2024-01-01", 2); (Py.lit "2024-01-02", 1)].
Proof. reflexivity. Qed.

Example daily_sales_of_unordered_input :
  aggregate_daily_sales (H := IsoCalendar.calendar)
    [ {| date_created := Py.lit "2024-01-02T09:30:00" |};
      {| date_created := Py.lit "2023-12-31" |};
      {| date_created := Py.lit "2024-01-01T23:59:59" |};
      {| date_created := Py.lit "2024-01-02" |} ]
  = Ok [(Py.lit "2023-12-31", 1); (Py.lit "2024-01-01", 1);
        (Py.lit "2024-01-02", 2)].
Proof. reflexivity. Qed.

(** C9.  The call returns exactly when every timestamp parses; otherwise
    the exception raised by [fromisoformat] on the first timestamp that
    does not parse reaches the caller. *)
Theorem malformed_timestamp_propagates `{Datetime} (orders : list order) :
  (is_ok (aggregate_daily_sales orders) ↔ Forall Spec.parses orders)
  ∧ (∀ before o after e,
       orders = before ++ o :: after →
       Forall Spec.parses before →
       fromisoformat (date_created o) = Raise e →
       aggregate_daily_sales orders = Raise e)
  ∧ (∀ o, o ∈ orders → ¬ Spec.parses o →
       ∃ e, aggregate_daily_sales orders = Raise e).
Proof.
  assert (Hraise : ∀ before o after e,
             orders = before ++ o :: after →
             Forall Spec.parses before →
             fromisoformat (date_created o) = Raise e →
             aggregate_daily_sales orders = Raise e).
  { intros before o after e -> Hall Ho. unfold aggregate_daily_sales.
    by rewrite (loop_first_failure _ _ _ e). }
  assert (Hiff : is_ok (aggregate_daily_sales orders)
                 ↔ Forall Spec.parses orders).
  { split.
    - intros [daily Hok].
      destruct (first_malformed orders)
        as [Hall|(before & o & after & e & E & Hall & Ho)]; [done|].
      rewrite (Hraise _ _ _ _ E Hall Ho) in Hok. discriminate.
    - intros Hall.
      destruct (aggregate_all_parse orders Hall) as (ks & _ & ->).
      by eexists. }
  split_and!; [done | done |].
  intros o Ho Hbad.
  destruct (first_malformed orders)
    as [Hall|(before & o' & after & e & E & Hall & Ho')].
  - rewrite Forall_forall in Hall. by destruct Hbad; apply Hall.
  - exists e. by apply (Hraise before o' after).
Qed.

Example malformed_timestamp_sample :
  aggregate_daily_sales (H := IsoCalendar.calendar)
    [ {| date_created := Py.lit "2024-01-01" |};
      {| date_created := Py.lit "yesterday" |};
      {| date_created := Py.lit "2024-01-02" |} ]
  = Raise IsoCalendar.invalid.
Proof. reflexivity. Qed.

(** C10.  When every timestamp parses, the counts of the mapping add up to
    the number of orders and every count is at least 1. *)
Theorem daily_sales_total `{Datetime} (orders : list order) :
  Forall Spec.parses orders →
  ∃ daily,
    aggregate_daily_sales orders = Ok daily
    ∧ Spec.total daily = Py.len orders
    ∧ Forall (λ entry, 1 ≤ entry.2) daily.
Proof.
  intros Hall.
  destruct (aggregate_all_parse orders Hall) as (ks & Hks & Hagg).
  eexists. split; [exact Hagg|]. split.
  - rewrite (total_Permutation _ _ (sorted_Permutation _)), tally_total.
    unfold Spec.total, Py.len. rewrite (Forall2_length _ _ _ Hks).
    simpl. lia.
  - apply Forall_forall. intros [k n] Hin.
    apply (aggregate_entries orders ks k n Hks) in Hin. simpl. lia.
Qed.

Lemma daily_sales_total_witness :
  let orders :=
    [ {| date_created := Py.lit "2024-01-02T09:30:00" |};
      {| date_created := Py.lit "2024-01-01" |};
      {| date_created := Py.lit "2024-01-02" |} ] in
  ∃ daily,
    aggregate_daily_sales (H := IsoCalendar.calendar) orders = Ok daily
    ∧ Spec.total daily = Py.len orders
    ∧ Forall (λ entry, 1 ≤ entry.2) daily.
Proof.
  apply (@daily_sales_total IsoCalendar.calendar).
  repeat constructor; eexists; reflexivity.
Defined.

(** ** Day keys and dates

    On the calendar of the examples the string order of the day keys is
    the chronological order of the days. *)

Section day_keys.
Import Py IsoCalendar.
Implicit Types (a b : date) (k l : str).

Lemma lexico_cons (x y : char) k l :
  lexico (x :: k) (y :: l) ↔ (x < y)%N ∨ x = y ∧ lexico k l.
Proof. done. Qed.

(** A common-length prefix decides the comparison unless it is shared. *)
Lemma lexico_app_same_length k1 k2 l1 l2 :
  length k1 = length k2 →
  lexico (k1 ++ l1) (k2 ++ l2) ↔ lexico k1 k2 ∨ k1 = k2 ∧ lexico l1 l2.
Proof.
  revert k2. induction k1 as [|x k1 IH]; intros [|y k2] Hlen; try done.
  - simpl. split; [by right | intros [[]|[_ ?]]; done].
  - simpl app. rewrite !lexico_cons, IH by (simpl in Hlen; lia).
    split.
    + intros [?|[-> [?|[-> ?]]]]; auto.
    + intros [[?|[-> ?]]|[[= -> ->] ?]]; auto.
Qed.

Lemma zero_padded_length w n : length (zero_padded w n) = w.
Proof.
  revert n. induction w as [|w IH]; intros n; [done|].
  simpl. rewrite length_app, IH. simpl. lia.
Qed.

(** Zero-padded fields of the same width compare as the numbers do. *)
Lemma zero_padded_order w m n :
  0 ≤ m < 10 ^ Z.of_nat w → 0 ≤ n < 10 ^ Z.of_nat w →
  (lexico (zero_padded w m) (zero_padded w n) ↔ m < n)
  ∧ (zero_padded w m = zero_padded w n ↔ m = n).
Proof.
  revert m n. induction w as [|w IH]; intros m n Hm Hn.
  - simpl in *. split; split; try done; lia.
  - rewrite Nat2Z.inj_succ, Z.pow_succ_r in Hm, Hn by lia.
    pose proof (Z.div_mod m 10) as Em. pose proof (Z.mod_pos_bound m 10) as Hrm.
    pose proof (Z.div_mod n 10) as En. pose proof (Z.mod_pos_bound n 10) as Hrn.
    destruct (IH (m `div` 10) (n `div` 10)) as [IHlt IHeq];
      [split; [apply Z.div_pos | apply Z.div_lt_upper_bound]; lia
      |split; [apply Z.div_pos | apply Z.div_lt_upper_bound]; lia|].
    cbn [zero_padded].
    assert (Hlast : ∀ a b : Z, 0 ≤ a < 10 → 0 ≤ b < 10 →
              (lexico [Z.to_N (48 + a)] [Z.to_N (48 + b)] ↔ a < b)
              ∧ ([Z.to_N (48 + a)] = [Z.to_N (48 + b)] ↔ a = b)).
    { intros a b Ha Hb. rewrite lexico_cons. split.
      - split; [intros [?|[_ []]]; lia | intros; left; lia].
      - split; [intros [= E]; lia | by intros ->]. }
    destruct (Hlast (m `mod` 10) (n `mod` 10)) as [Hlt Heq]; [lia | lia |].
    split.
    + rewrite lexico_app_same_length by by rewrite !zero_padded_length.
      rewrite IHlt, IHeq, Hlt. lia.
    + split; [|by intros ->]. intros E.
      apply app_inj_1 in E as [E1 E2]; [|by rewrite !zero_padded_length].
      apply IHeq in E1. apply Heq in E2. lia.
Qed.

Lemma format_day_key a :
  format a (lit "%Y-%m-%d")
  = zero_padded 4 (year a)
    ++ lit "-" ++ zero_padded 2 (month a)
    ++ lit "-" ++ zero_padded 2 (day a).
Proof.
  change (lit "%Y-%m-%d") with [37; 89; 45; 37; 109; 45; 37; 100]%N.
  cbn [format]. repeat case_bool_decide; try done.
  all: by rewrite app_nil_r.
Qed.

(** The day keys of two dates compare as the dates do. *)
Lemma day_keys_chronological a b :
  valid a → valid b →
  lexico (format a (lit "%Y-%m-%d")) (format b (lit "%Y-%m-%d"))
  ↔ earlier a b.
Proof.
  intros (Hya & Hma & Hda) (Hyb & Hmb & Hdb). rewrite !format_day_key.
  unfold earlier.
  destruct (zero_padded_order 4 (year a) (year b)) as [Hy Hy']; [lia | lia|].
  destruct (zero_padded_order 2 (month a) (month b)) as [Hm Hm'];
    [lia | lia|].
  destruct (zero_padded_order 2 (day a) (day b)) as [Hd _]; [lia | lia|].
  rewrite lexico_app_same_length by by rewrite !zero_padded_length.
  rewrite (lexico_app_same_length (lit "-")) by done.
  rewrite lexico_app_same_length by by rewrite !zero_padded_length.
  rewrite (lexico_app_same_length (lit "-")) by done.
  rewrite Hy, Hy', Hm, Hm', Hd.
  assert (Hirr : ¬ lexico (lit "-") (lit "-")) by apply irreflexivity, _.
  tauto.
Qed.

Lemma number_of_four_digits (c1 c2 c3 c4 : char) y :
  number [c1; c2; c3; c4] = Some y → 0 ≤ y ≤ 9999.
Proof.
  unfold number, digit. simpl.
  repeat case_bool_decide; simpl; intros Hy; simplify_eq; lia.
Qed.

(** [parse] returns valid dates only. *)
Lemma parse_date_valid k a : parse_date k = Some a → valid a.
Proof.
  unfold parse_date. intros Hk. repeat (case_match; try done).
  repeat match type of Hk with
         | context [number ?l] =>
             destruct (number l) eqn:?; simpl in Hk; [|done]
         end.
  case_bool_decide as Hvalid; [|done]. injection Hk as <-.
  destruct Hvalid as (Hy & Hm & Hd). unfold valid. simpl.
  match goal with
  | H : number [_; _; _; _] = Some _ |- _ =>
      apply number_of_four_digits in H
  end.
  match goal with
  | H : context [days_in_month ?y ?m] |- _ =>
      assert (days_in_month y m ≤ 31)
        by (unfold days_in_month; repeat case_match; lia)
  end.
  lia.
Qed.

Lemma parse_valid k a : parse k = Ok a → valid a.
Proof.
  unfold parse. destruct (parse_date (take 10 k)) as [a'|] eqn:E; [|done].
  apply parse_date_valid in E. intros Hk.
  repeat case_match; by simplify_eq.
Qed.

(** On that calendar the entries of the mapping come in the order of
    their days. *)
Lemma daily_sales_chronological (orders : list order) daily :
  aggregate_daily_sales (H := calendar) orders = Ok daily →
  StronglySorted
    (λ k l, ∀ a b, valid a → valid b →
              format a (lit "%Y-%m-%d") = k → format b (lit "%Y-%m-%d") = l →
              earlier a b)
    daily.*1.
Proof.
  intros Hagg.
  destruct (first_malformed (H := calendar) orders)
    as [Hall|(before & o & after & e & -> & Hall & Ho)].
  - destruct (aggregate_all_parse orders Hall) as (ks & _ & E).
    rewrite E in Hagg. injection Hagg as <-.
    rewrite <- (list_fmap_id (_.*1)). apply (StronglySorted_fmap id lexico).
    + intros k l Hkl a b Ha Hb Ek El.
      apply (proj1 (day_keys_chronological a b Ha Hb)).
      rewrite Ek, El. exact Hkl.
    + apply sorted_keys_ascending, tally_NoDup. constructor.
  - unfold aggregate_daily_sales in Hagg.
    by rewrite (loop_first_failure _ _ _ e) in Hagg.
Qed.

End day_keys.

(** * Further properties *)

(** ** Rounding *)

Lemma round_half_even_cases (x : Q) :
  (Py.round_half_even x = Qfloor x
   ∧ (x - inject_Z (Qfloor x) <= 1 # 2)%Q)
  ∨ (Py.round_half_even x = Qfloor x + 1
     ∧ (1 # 2 <= x - inject_Z (Qfloor x))%Q).
Proof.
  unfold Py.round_half_even.
  destruct (Qcompare_spec (x - inject_Z (Qfloor x)) (1 # 2)) as [E|E|E].
  - destruct (Z.even (Qfloor x)); [left | right]; split; try done;
      rewrite E; done.
  - left. split; [done | by apply Qlt_le_weak].
  - right. split; [done | by apply Qlt_le_weak].
Qed.

Lemma round_half_even_Qeq (x y : Q) :
  (x == y)%Q → Py.round_half_even x = Py.round_half_even y.
Proof.
  intros E. unfold Py.round_half_even.
  rewrite (Qfloor_comp x y E).
  assert (E' : (x - inject_Z (Qfloor y) == y - inject_Z (Qfloor y))%Q)
    by by rewrite E.
  by rewrite (Qcompare_comp _ _ E' (1 # 2)%Q (1 # 2)%Q (Qeq_refl _)).
Qed.

Lemma round_half_even_close (x : Q) :
  (x - (1 # 2) <= inject_Z (Py.round_half_even x) <= x + (1 # 2))%Q.
Proof.
  pose proof (Qfloor_le x) as Hlo. pose proof (Qlt_floor x) as Hhi.
  rewrite inject_Z_plus in Hhi. change (inject_Z 1) with 1%Q in Hhi.
  destruct (round_half_even_cases x) as [[-> H]|[-> H]];
    rewrite ?inject_Z_plus; change (inject_Z 1) with 1%Q; split; lra.
Qed.

Lemma round_half_even_mono (x y : Q) :
  (x <= y)%Q → Py.round_half_even x ≤ Py.round_half_even y.
Proof.
  intros Hxy. pose proof (Qfloor_resp_le x y Hxy) as Hf.
  destruct (decide (Qfloor x = Qfloor y)) as [E|Hne].
  - unfold Py.round_half_even. rewrite E.
    destruct (Qcompare_spec (x - inject_Z (Qfloor y)) (1 # 2)) as [Ex|Ex|Ex];
      destruct (Qcompare_spec (y - inject_Z (Qfloor y)) (1 # 2))
        as [Ey|Ey|Ey];
      try (exfalso; lra); destruct (Z.even (Qfloor y)); lia.
  - destruct (round_half_even_cases x) as [[-> _]|[-> _]];
      destruct (round_half_even_cases y) as [[-> _]|[-> _]]; lia.
Qed.

Lemma round2_value (x : Q) :
  (Py.round2 x == inject_Z (Py.round_half_even (x * 100)) / 100)%Q.
Proof. unfold Py.round2. apply Qred_correct. Qed.

Lemma round2_Qeq (x y : Q) : (x == y)%Q → Py.round2 x = Py.round2 y.
Proof.
  intros E. unfold Py.round2. apply Qred_complete.
  rewrite (round_half_even_Qeq (x * 100) (y * 100)); [done|]. by rewrite E.
Qed.

Lemma round2_close (x : Q) : (Qabs (Py.round2 x - x) <= 1 # 200)%Q.
Proof.
  apply Qabs_Qle_condition. rewrite round2_value.
  pose proof (round_half_even_close (x * 100)) as [Hlo Hhi].
  set (r := inject_Z (Py.round_half_even (x * 100))) in *.
  assert (E : (r / 100 == r * (1 # 100))%Q) by (by field).
  rewrite E. split; lra.
Qed.

Lemma round2_mono (x y : Q) : (x <= y)%Q → (Py.round2 x <= Py.round2 y)%Q.
Proof.
  intros Hxy. rewrite !round2_value.
  assert (H : Py.round_half_even (x * 100) ≤ Py.round_half_even (y * 100))
    by (apply round_half_even_mono; lra).
  rewrite Zle_Qle in H.
  set (a := inject_Z (Py.round_half_even (x * 100))) in *.
  set (b := inject_Z (Py.round_half_even (y * 100))) in *.
  assert (Ea : (a / 100 == a * (1 # 100))%Q) by (by field).
  assert (Eb : (b / 100 == b * (1 # 100))%Q) by (by field).
  rewrite Ea, Eb. lra.
Qed.

(** ** More on moving averages *)

Lemma sum_cons (x : Q) (xs : list Q) : (Py.sum (x :: xs) == x + Py.sum xs)%Q.
Proof. unfold Py.sum at 1. simpl. rewrite sum_from. ring. Qed.

(** A non-positive window is always rejected: dividing by a window of 0
    raises [ZeroDivisionError] when no weights are given, the empty weight
    list passes the length test for a window of 0 and then fails the sum
    test, and every other case fails the length test. *)
Theorem nonpositive_window_raises (data : list Q) (window : Z)
    (weights : option (list Q)) :
  window ≤ 0 →
  calculate_moving_average data window weights
  = Raise (if bool_decide (window = 0)
           then match weights with
                | None => ZeroDivisionError
                | Some [] => WeightsNotNormalized
                | Some _ => InvalidWeightLength
                end
           else InvalidWeightLength).
Proof.
  intros Hw. unfold calculate_moving_average.
  destruct weights as [ws|]; simpl.
  - case_bool_decide as Hlen.
    + case_bool_decide; [|done]. destruct ws; [|done].
      unfold Py.len in Hlen; simpl in Hlen. lia.
    + assert (window = 0 ∧ ws = []) as [-> ->].
      { unfold Py.len in Hlen. destruct ws; simpl in Hlen; [|lia].
        split; [lia | done]. }
      done.
  - unfold Py.truediv. case_bool_decide as H0.
    + subst window. done.
    + destruct (Qeq_bool (inject_Z window) 0) eqn:E.
      { apply Qeq_bool_eq in E. unfold Qeq in E; simpl in E. lia. }
      simpl. rewrite repeat_singleton.
      replace (Z.to_nat window) with 0%nat by lia. simpl.
      rewrite bool_decide_eq_true_2; [done|]. unfold Py.len; simpl. lia.
Qed.

Lemma nonpositive_window_raises_witness :
  calculate_moving_average [1; 2; 3]%Q (-2) None = Raise InvalidWeightLength.
Proof. apply (nonpositive_window_raises [1; 2; 3]%Q (-2) None). lia. Defined.

Lemma slice_app {A} (l m : list A) (a b : Z) :
  0 ≤ a → 0 ≤ b ≤ Py.len l → Py.slice (l ++ m) a b = Py.slice l a b.
Proof.
  intros Ha Hb. unfold Py.slice, Py.slice_bound, Py.len in *.
  rewrite length_app, !bool_decide_eq_false_2 by lia.
  destruct (decide (a ≤ Z.of_nat (length l))) as [Hal|Hal].
  - rewrite !Z.min_l by lia.
    rewrite drop_app_le by lia. rewrite take_app_le; [done|].
    rewrite length_drop. lia.
  - replace (Z.to_nat (Z.min b (Z.of_nat (length l + length m))
                       - Z.min a (Z.of_nat (length l + length m))))
      with 0%nat by lia.
    replace (Z.to_nat (Z.min b (Z.of_nat (length l))
                       - Z.min a (Z.of_nat (length l))))
      with 0%nat by lia.
    done.
Qed.

Lemma loop_entry_app (data more : list Q) (window : Z) (ws : list Q) (i : Z) :
  0 ≤ i < Py.len data →
  Spec.loop_entry (data ++ more) window ws i = Spec.loop_entry data window ws i.
Proof.
  intros Hi. unfold Spec.loop_entry. case_bool_decide; [done|].
  rewrite slice_app; [done | lia | lia].
Qed.



Lemma slice_length {A} (l : list A) (a b : Z) :
  0 ≤ a ≤ b → b ≤ Py.len l → Py.len (Py.slice l a b) = b - a.
Proof.
  intros Ha Hb. unfold Py.slice, Py.slice_bound, Py.len in *.
  rewrite !bool_decide_eq_false_2 by lia.
  rewrite length_take, length_drop. lia.
Qed.

Lemma slice_Forall {A} (P : A → Prop) (l : list A) (a b : Z) :
  Forall P l → Forall P (Py.slice l a b).
Proof. intros Hl. unfold Py.slice. by apply Forall_take, Forall_drop. Qed.

Lemma slice_replicate {A} (x : A) (n : nat) (a b : Z) :
  0 ≤ a ≤ b → b ≤ Z.of_nat n →
  Py.slice (replicate n x) a b = replicate (Z.to_nat (b - a)) x.
Proof.
  intros Ha Hb. unfold Py.slice, Py.slice_bound, Py.len.
  rewrite length_replicate, !bool_decide_eq_false_2 by lia.
  rewrite drop_replicate, take_replicate. f_equal. lia.
Qed.

(** A weighted sum with non-negative weights lies between the extremes of
    the values, scaled by the sum of the weights. *)
Lemma weighted_sum_bounds (lo hi : Q) (ws xs : list Q) :
  length ws = length xs →
  Forall (λ w, 0 <= w)%Q ws →
  Forall (λ x, lo <= x <= hi)%Q xs →
  (lo * Py.sum ws <= Py.sum (zip_with Qmult ws xs) <= hi * Py.sum ws)%Q.
Proof.
  revert xs. induction ws as [|w ws IH]; intros [|x xs] Hlen Hws Hxs;
    try discriminate; simpl.
  - unfold Py.sum; simpl. split; lra.
  - injection Hlen as Hlen.
    inversion_clear Hws as [|? ? Hw Hws']. inversion_clear Hxs as [|? ? Hx Hxs'].
    destruct (IH xs Hlen Hws' Hxs') as [IHlo IHhi].
    rewrite !sum_cons.
    assert (lo * w <= w * x)%Q.
    { rewrite (Qmult_comm w x). apply Qmult_le_compat_r; tauto. }
    assert (w * x <= hi * w)%Q.
    { rewrite (Qmult_comm w x). apply Qmult_le_compat_r; tauto. }
    split; lra.
Qed.





(** ** More on the coordinate normalizer *)

Lemma int_opp (q : Q) : Py.int (- q) = - Py.int q.
Proof. destruct q as [n d]. unfold Py.int. simpl. by rewrite Z.quot_opp_l. Qed.

Lemma int_sign (q : Q) : (q <= 0)%Q → Py.int q ≤ 0.
Proof.
  destruct q as [n d]. unfold Qle, Py.int. simpl. intros Hn.
  replace n with (- - n) by lia. rewrite Z.quot_opp_l by lia.
  assert (0 ≤ (- n) `quot` Z.pos d); [|lia]. apply Z.quot_pos; lia.
Qed.

(** Truncation toward zero is monotone. *)
Lemma int_mono (x y : Q) : (x <= y)%Q → Py.int x ≤ Py.int y.
Proof.
  intros Hxy. destruct (Qlt_le_dec x 0) as [Hx|Hx].
  - destruct (Qlt_le_dec y 0) as [Hy|Hy].
    + assert (E : ∀ q, Py.int q = - Py.int (- q))
        by (intros q; rewrite int_opp; lia).
      rewrite (E x), (E y), !int_is_floor by lra.
      assert (Py.floor (- y) ≤ Py.floor (- x)); [|lia].
      apply Qfloor_resp_le. lra.
    + rewrite (int_is_floor y) by done.
      assert (Py.int x ≤ 0) by (apply int_sign; lra).
      assert (0 ≤ Py.floor y); [|lia].
      change 0 with (Qfloor 0). by apply Qfloor_resp_le.
  - rewrite !int_is_floor by lra. by apply Qfloor_resp_le.
Qed.

Lemma int_row_antitone (x y : Q) :
  (x <= y)%Q → Spec.int_row 20 20 y ≤ Spec.int_row 20 20 x.
Proof.
  intros Hxy. unfold Spec.int_row.
  assert (Py.int (Py.min x (inject_Z 20) / inject_Z 20 * inject_Z (20 - 1))
          ≤ Py.int (Py.min y (inject_Z 20) / inject_Z 20 * inject_Z (20 - 1)));
    [|lia].
  apply int_mono. rewrite !min_is_Qmin.
  pose proof (Q.min_le_compat_r x y (inject_Z 20) Hxy) as Hmin.
  apply Qmult_le_compat_r; [|done]. apply Qmult_le_compat_r; [|done]. done.
Qed.

Lemma int_row_nonneg (x : Q) : 0 ≤ Spec.int_row 20 20 x.
Proof.
  unfold Spec.int_row.
  assert (Py.int (Py.min x (inject_Z 20) / inject_Z 20 * inject_Z (20 - 1))
          ≤ Py.int (inject_Z 20 / inject_Z 20 * inject_Z (20 - 1)));
    [|change (Py.int (inject_Z 20 / inject_Z 20 * inject_Z (20 - 1)))
        with 19 in *; lia].
  apply int_mono. rewrite min_is_Qmin.
  pose proof (Q.le_min_r x (inject_Z 20)) as Hmin.
  apply Qmult_le_compat_r; [|done]. apply Qmult_le_compat_r; [|done]. done.
Qed.


(** ** What the plot shows *)

Lemma shown_nil background y x : Spec.shown background [] y x = background.
Proof. done. Qed.

Lemma shown_cons background (r c : Z) symbol ms y x :
  Spec.shown background ((r, c, symbol) :: ms) y x
  = Spec.shown (if bool_decide (r = y ∧ c = x) then symbol else background)
      ms y x.
Proof.
  unfold Spec.shown. csimpl. case_bool_decide; [|done].
  rewrite last_cons. by destruct (last _).
Qed.

Lemma shown_app background ms1 ms2 y x :
  Spec.shown background (ms1 ++ ms2) y x
  = Spec.shown (Spec.shown background ms1 y x) ms2 y x.
Proof.
  revert background. induction ms1 as [|[[r c] symbol] ms1 IH];
    intros background; [done|].
  simpl. by rewrite !shown_cons, IH.
Qed.

(** A cell that no point falls on keeps its background. *)
Lemma shown_untouched background ms y x :
  Forall (λ m, ¬ (m.1.1 = y ∧ m.1.2 = x)) ms →
  Spec.shown background ms y x = background.
Proof.
  induction 1 as [|[[r c] symbol] ms Hm _ IH]; [done|].
  rewrite shown_cons, bool_decide_eq_false_2; done.
Qed.

(** The effect of one assignment [graph[y][x] = symbol] on a cell. *)
Lemma cell_plot_point self x_scale symbol graph (i : Z) (oy : option Z)
    (y x : Z) (old : Py.str) :
  0 ≤ y < height self → 0 ≤ x < width self →
  Spec.cell graph y x = Some old →
  Spec.cell (plot_point self x_scale symbol graph (i, oy)) y x
  = Some (match oy with
          | Some r =>
              if bool_decide (r = y ∧ Py.int (inject_Z i * x_scale) = x)
              then symbol else old
          | None => old
          end).
Proof.
  intros Hy Hx Hold. unfold plot_point. simpl. destruct oy as [r|]; [|done].
  set (c := Py.int (inject_Z i * x_scale)).
  unfold Spec.cell in *.
  destruct (graph !! Z.to_nat y) as [row|] eqn:Hrow; [|done].
  simpl in Hold. case_bool_decide as Hin.
  - destruct (decide (Z.to_nat r = Z.to_nat y)) as [Er|Er].
    + rewrite Er, list_lookup_alter, Hrow. simpl.
      rewrite decide_True by done. simpl.
      destruct (decide (Z.to_nat c = Z.to_nat x)) as [Ec|Ec].
      * rewrite Ec, list_lookup_insert_eq by (by eapply lookup_lt_Some).
        rewrite bool_decide_eq_true_2 by lia. done.
      * rewrite list_lookup_insert_ne by done.
        rewrite bool_decide_eq_false_2 by lia. done.
    + rewrite list_lookup_alter_ne, Hrow by done. simpl.
      rewrite bool_decide_eq_false_2 by lia. done.
  - rewrite Hrow. simpl. rewrite bool_decide_eq_false_2 by lia. done.
Qed.

Lemma cell_plot_series self x_scale graph rows label symbol y x old :
  0 ≤ y < height self → 0 ≤ x < width self →
  Spec.cell graph y x = Some old →
  Spec.cell (plot_series self x_scale graph (rows, label, symbol)) y x
  = Some (Spec.shown old (Spec.series_marks x_scale symbol rows) y x).
Proof.
  intros Hy Hx. unfold plot_series, Spec.series_marks.
  generalize (Py.enumerate rows). intros l. revert graph old.
  induction l as [|[i oy] l IH]; intros graph old Hold; [done|].
  simpl fold_left.
  rewrite (IH _ _ (cell_plot_point self x_scale symbol graph i oy y x old
                     Hy Hx Hold)).
  f_equal. csimpl. destruct oy as [r|]; csimpl; [|done].
  by rewrite shown_cons.
Qed.

Lemma cell_plot_all self h m x_scale (data_series : list series) graph y x
    old :
  0 ≤ y < height self → 0 ≤ x < width self →
  Spec.cell graph y x = Some old →
  Spec.cell
    (fold_left (plot_series self x_scale)
       ((λ '(data, label, symbol),
           (Spec.normalized h m data, label, symbol)) <$> data_series)
       graph) y x
  = Some (Spec.shown old (Spec.marks h m x_scale data_series) y x).
Proof.
  intros Hy Hx. revert graph old.
  induction data_series as [|[[data label] symbol] ds IH];
    intros graph old Hold; [done|].
  rewrite fmap_cons. simpl fold_left.
  erewrite IH by (by apply (cell_plot_series _ _ _ _ label)).
  unfold Spec.marks. rewrite bind_cons. by rewrite shown_app.
Qed.

Lemma cell_blank_graph (y x : Z) :
  0 ≤ y < 20 → 0 ≤ x < 100 →
  Spec.cell (blank_graph __init__) y x = Some Glyph.dot.
Proof.
  intros Hy Hx. unfold Spec.cell, blank_graph.
  rewrite lookup_replicate_2 by (simpl; lia).
  cbn [mbind option_bind]. by rewrite lookup_replicate_2 by (simpl; lia).
Qed.



Lemma elem_of_enumerate {A} (l : list A) (i : Z) (a : A) :
  (i, a) ∈ Py.enumerate l ↔ 0 ≤ i ∧ l !! Z.to_nat i = Some a.
Proof.
  unfold Py.enumerate, Py.range, Py.len. rewrite list_elem_of_lookup. split.
  - intros [k Hk]. apply lookup_zip_with_Some in Hk as (j & b & E & Hj & Hb).
    simplify_eq. apply lookup_seqZ in Hj as [-> Hj].
    split; [lia|]. by replace (Z.to_nat (0 + Z.of_nat k)) with k by lia.
  - intros [Hi Ha]. exists (Z.to_nat i).
    apply lookup_zip_with_Some. exists i, a. split_and!; [done| |done].
    apply lookup_seqZ. apply lookup_lt_Some in Ha. lia.
Qed.

(** The points of a call of [draw] are those of the defined values. *)
Lemma elem_of_marks (h m : Z) (x_scale : Q) (data_series : list series)
    (r c : Z) (symbol : Py.str) :
  (r, c, symbol) ∈ Spec.marks h m x_scale data_series
  ↔ ∃ data label (i : Z) (v : Q),
      (data, label, symbol) ∈ data_series
      ∧ 0 ≤ i ∧ data !! Z.to_nat i = Some (Some v)
      ∧ r = Spec.int_row h m v
      ∧ c = Py.int (inject_Z i * x_scale).
Proof.
  unfold Spec.marks, Spec.series_marks. rewrite list_elem_of_bind. split.
  - intros ([[data label] symbol'] & Hm & Hs).
    apply list_elem_of_omap in Hm as ([i oy] & Hi & Hy).
    apply elem_of_enumerate in Hi as [Hi Hrow].
    destruct oy as [y|]; simplify_eq/=.
    unfold Spec.normalized in Hrow. rewrite list_lookup_fmap in Hrow.
    destruct (data !! Z.to_nat i) as [[v|]|] eqn:Hv; simplify_eq/=.
    by exists data, label, i, v.
  - intros (data & label & i & v & Hs & Hi & Hv & -> & ->).
    exists (data, label, symbol). split; [|done].
    apply list_elem_of_omap. exists (i, Some (Spec.int_row h m v)).
    split; [|done]. apply elem_of_enumerate. split; [done|].
    unfold Spec.normalized. by rewrite list_lookup_fmap, Hv.
Qed.

(** A cell that some point falls on shows the symbol of such a point. *)
Lemma shown_hit background ms (y x : Z) symbol :
  (y, x, symbol) ∈ ms →
  ∃ symbol', (y, x, symbol') ∈ ms ∧ Spec.shown background ms y x = symbol'.
Proof.
  revert background symbol.
  induction ms as [|[[r c] s] ms IH]; intros background symbol Hm.
  - by apply elem_of_nil in Hm.
  - rewrite shown_cons.
    destruct (decide (Exists (λ m, m.1.1 = y ∧ m.1.2 = x) ms)) as [Hex|Hno].
    + apply Exists_exists in Hex as ([[r' c'] s'] & Hin' & Hr & Hc).
      simpl in *. subst.
      destruct (IH (if bool_decide (r = y ∧ c = x) then s else background)
                  s' Hin') as (s'' & Hs'' & E).
      exists s''. split; [by right | done].
    + apply Forall_Exists_neg in Hno.
      apply elem_of_cons in Hm as [E|Hm].
      * injection E as <- <- <-. rewrite bool_decide_eq_true_2 by done.
        exists symbol. split; [left | by apply shown_untouched].
      * rewrite Forall_forall in Hno. by destruct (Hno _ Hm).
Qed.

Lemma inject_Z_nonneg (z : Z) : 0 ≤ z → (0 <= inject_Z z)%Q.
Proof. intros Hz. change 0%Q with (inject_Z 0). by rewrite <- Zle_Qle. Qed.

Lemma inject_Z_pos (z : Z) : 0 < z → (0 < inject_Z z)%Q.
Proof. intros Hz. change 0%Q with (inject_Z 0). by rewrite <- Zlt_Qlt. Qed.

Lemma column_within (n i : Z) :
  2 ≤ n → 0 ≤ i < n →
  0 ≤ Py.int (inject_Z i * (inject_Z 99 / inject_Z (n - 1))) < 100.
Proof.
  intros Hn Hi.
  assert (H0 : (0 <= inject_Z i * (inject_Z 99 / inject_Z (n - 1)))%Q).
  { apply Qmult_le_0_compat; [apply inject_Z_nonneg; lia|].
    apply Qle_shift_div_l; [apply inject_Z_pos; lia | done]. }
  rewrite int_is_floor by done. unfold Py.floor. split.
  - change 0 with (Qfloor 0). by apply Qfloor_resp_le.
  - assert (Qfloor (inject_Z i * (inject_Z 99 / inject_Z (n - 1)))
            ≤ Qfloor (inject_Z 99)); [|rewrite Qfloor_Z in *; lia].
    apply Qfloor_resp_le.
    assert (E : (inject_Z i * (inject_Z 99 / inject_Z (n - 1))
                 == inject_Z (i * 99) / inject_Z (n - 1))%Q).
    { rewrite inject_Z_mult. field. intros E. unfold Qeq in E; simpl in E.
      lia. }
    rewrite E. apply Qle_shift_div_r; [apply inject_Z_pos; lia|].
    rewrite <- inject_Z_mult, <- Zle_Qle. lia.
Qed.




(** ** Counting in batches *)

Section batches.
Import Py Spec.
Context `{Datetime}.

(** Looking a day up in the mapping gives the number of its orders, and
    nothing for a day without orders. *)
Lemma aggregate_get (orders : list order) :
  Forall parses orders →
  ∃ daily,
    aggregate_daily_sales orders = Ok daily
    ∧ ∀ k, default 0 (dict_get daily k) = orders_on k orders.
Proof.
  intros Hall.
  destruct (aggregate_all_parse orders Hall) as (ks & Hks & Hagg).
  eexists. split; [exact Hagg|]. intros k.
  set (daily := sorted (fold_left defaultdict_incr ks [])).
  assert (Hnodup : NoDup daily.*1).
  { unfold daily. rewrite sorted_Permutation. apply tally_NoDup. constructor. }
  destruct (dict_get daily k) as [n|] eqn:Hget; simpl.
  - apply (dict_get_Some _ _ _ Hnodup) in Hget.
    by apply (aggregate_entries orders ks k n Hks) in Hget as [-> _].
  - apply dict_get_None in Hget.
    destruct (decide (orders_on k orders = 0)) as [E|Hne]; [done|].
    exfalso. apply Hget. apply list_elem_of_fmap.
    exists (k, orders_on k orders). split; [done|].
    apply (aggregate_entries orders ks k _ Hks). split; [done|].
    unfold orders_on, len in *. lia.
Qed.

End batches.

(** Orders can be counted in batches: for every day, the count that the
    aggregator gives two batches taken together is the sum of the counts it
    gives each of them, a day missing from a mapping counting for 0. *)
Theorem daily_sales_of_batches `{Datetime} (batch1 batch2 : list order) :
  Forall Spec.parses batch1 → Forall Spec.parses batch2 →
  ∃ daily1 daily2 daily,
    aggregate_daily_sales batch1 = Ok daily1
    ∧ aggregate_daily_sales batch2 = Ok daily2
    ∧ aggregate_daily_sales (batch1 ++ batch2) = Ok daily
    ∧ ∀ k, default 0 (Py.dict_get daily k)
           = default 0 (Py.dict_get daily1 k)
             + default 0 (Py.dict_get daily2 k).
Proof.
  intros H1 H2.
  destruct (aggregate_get batch1 H1) as (daily1 & E1 & G1).
  destruct (aggregate_get batch2 H2) as (daily2 & E2 & G2).
  destruct (aggregate_get (batch1 ++ batch2)) as (daily & E & G).
  { by apply Forall_app. }
  exists daily1, daily2, daily. split_and!; [done | done | done |].
  intros k. rewrite G, G1, G2. unfold Spec.orders_on, Py.len.
  rewrite filter_app, length_app. lia.
Qed.

Lemma daily_sales_of_batches_witness :
  let batch1 :=
    [ {| date_created := Py.lit "2024-01-02T09:30:00" |};
      {| date_created := Py.lit "2024-01-01" |} ] in
  let batch2 := [ {| date_created := Py.lit "2024-01-02" |} ] in
  ∃ daily1 daily2 daily,
    aggregate_daily_sales (H := IsoCalendar.calendar) batch1 = Ok daily1
    ∧ aggregate_daily_sales (H := IsoCalendar.calendar) batch2 = Ok daily2
    ∧ aggregate_daily_sales (H := IsoCalendar.calendar) (batch1 ++ batch2)
      = Ok daily
    ∧ ∀ k, default 0 (Py.dict_get daily k)
           = default 0 (Py.dict_get daily1 k)
             + default 0 (Py.dict_get daily2 k).
Proof.
  apply (@daily_sales_of_batches IsoCalendar.calendar).
  - repeat constructor; eexists; reflexivity.
  - repeat constructor; eexists; reflexivity.
Defined.

(** ** The paginated fetch *)

Section fetching.
Import Py Spec.
Context `{Shop}.
Variable self : Report.t.
Variable days : Z.

Local Abbreviation loop fuel :=
  (Report.fetch_loop fuel self (minus_days now days) now).

Lemma fetch_loop_step fuel all_orders p :
  loop (S fuel) all_orders p
  = match answer self days p with
    | Raise e => Some (Raise e)
    | Ok [] => Some (Ok all_orders)
    | Ok orders => loop fuel (all_orders ++ orders) (p + 1)
    end.
Proof. done. Qed.

(** As long as the pages come back non-empty the loop appends them and
    asks for the next one. *)
Lemma fetch_loop_pages (pages : Z → list order) (n fuel : nat) all_orders p :
  (∀ k, p ≤ k < p + Z.of_nat n →
        answer self days k = Ok (pages k) ∧ pages k ≠ []) →
  loop (n + fuel) all_orders p
  = loop fuel (all_orders ++ mjoin (pages <$> seqZ p (Z.of_nat n)))
      (p + Z.of_nat n).
Proof.
  revert all_orders p. induction n as [|n IH]; intros all_orders p Hpages.
  - simpl. by rewrite app_nil_r, Z.add_0_r.
  - replace (S n + fuel)%nat with (S (n + fuel)) by lia.
    rewrite fetch_loop_step.
    destruct (Hpages p) as [-> Hne]; [lia|].
    destruct (pages p) as [|o orders] eqn:Ep; [done|].
    rewrite IH by (intros k Hk; apply Hpages; lia).
    rewrite Nat2Z.inj_succ.
    rewrite (seqZ_cons p (Z.succ (Z.of_nat n))) by lia.
    rewrite fmap_cons, Ep, Z.pred_succ.
    change (mjoin ((o :: orders) :: ?l)) with ((o :: orders) ++ mjoin l).
    rewrite <- app_assoc. f_equal. lia.
Qed.

Lemma fetch_loop_short (pages : Z → list order) (n fuel : nat) all_orders p :
  (∀ k, p ≤ k < p + Z.of_nat n →
        answer self days k = Ok (pages k) ∧ pages k ≠ []) →
  (fuel ≤ n)%nat → loop fuel all_orders p = None.
Proof.
  revert n all_orders p. induction fuel as [|fuel IH];
    intros n all_orders p Hpages Hfuel; [done|].
  destruct n as [|n]; [lia|]. rewrite fetch_loop_step.
  destruct (Hpages p) as [-> Hne]; [lia|].
  destruct (pages p) as [|o orders] eqn:Ep; [done|].
  apply (IH n); [|lia]. intros k Hk. apply Hpages. lia.
Qed.

End fetching.

(** The fetch asks for the pages 1, 2, ... of the completed orders created
    in the [days] days before the reading of the clock, 100 to a page,
    until a page comes back empty, and returns the orders of the pages in
    that order: with [n] non-empty pages it sends [n + 1] requests. *)
Theorem fetch_collects_pages `{Shop} (self : Report.t) (days : Z)
    (pages : Z → list order) (n fuel : nat) :
  (∀ k, 1 ≤ k ≤ Z.of_nat n →
        get_json (Report.wcapi self) (Py.lit "orders")
          {| after := isoformat (minus_days now days);
             before := isoformat now;
             per_page := 100; page := k; status := Py.lit "completed" |}
        = Ok (pages k)
        ∧ pages k ≠ []) →
  Spec.answer self days (Z.of_nat n + 1) = Ok [] →
  Report.get_sales_data fuel self days
  = if decide (n < fuel)%nat
    then Some (Ok (mjoin (pages <$> seqZ 1 (Z.of_nat n))))
    else None.
Proof.
  intros Hpages Hlast. unfold Report.get_sales_data. cbv zeta.
  case_decide as Hfuel.
  - replace fuel with (n + S (fuel - S n))%nat by lia.
    rewrite (fetch_loop_pages self days pages)
      by (intros k Hk; apply Hpages; lia).
    rewrite fetch_loop_step, Z.add_comm, Hlast. done.
  - apply (fetch_loop_short self days pages n); [|lia].
    intros k Hk. apply Hpages. lia.
Qed.

Lemma fetch_collects_pages_witness :
  let shop := SampleShop.shop SampleShop.today SampleShop.two_pages in
  let self := Report.__init__ (H0 := shop) (Py.lit "https://shop.example")
                (Py.lit "ck") (Py.lit "cs") in
  let pages := λ p, default [] (match SampleShop.two_pages p with
                                | Ok orders => Some orders
                                | Raise _ => None
                                end) in
  Report.get_sales_data (H0 := shop) 5 self 30
  = if decide (2 < 5)%nat
    then Some (Ok (mjoin (pages <$> seqZ 1 (Z.of_nat 2))))
    else None.
Proof.
  intros shop self pages.
  apply (@fetch_collects_pages _ shop self 30 pages 2 5).
  - intros k Hk. assert (k = 1 ∨ k = 2) as [-> | ->] by lia;
      (split; [reflexivity | discriminate]).
  - reflexivity.
Defined.

(** An exception of the client on any page ends the fetch with that
    exception: the orders of the pages fetched before it are not
    returned. *)
Theorem fetch_error_propagates `{Shop} (self : Report.t) (days : Z)
    (pages : Z → list order) (n fuel : nat) (e : exn) :
  (∀ k, 1 ≤ k ≤ Z.of_nat n →
        Spec.answer self days k = Ok (pages k) ∧ pages k ≠ []) →
  Spec.answer self days (Z.of_nat n + 1) = Raise e →
  (n < fuel)%nat →
  Report.get_sales_data fuel self days = Some (Raise e).
Proof.
  intros Hpages Hlast Hfuel. unfold Report.get_sales_data. cbv zeta.
  replace fuel with (n + S (fuel - S n))%nat by lia.
  rewrite (fetch_loop_pages self days pages)
    by (intros k Hk; apply Hpages; lia).
  rewrite fetch_loop_step, Z.add_comm, Hlast. done.
Qed.

Lemma fetch_error_propagates_witness :
  let pages := λ p : Z,
    if bool_decide (p = 1)
    then Ok [ {| date_created := Py.lit "2024-01-02" |} ]
    else Raise (ValueError "timed out") in
  let shop := SampleShop.shop SampleShop.today pages in
  let self := Report.__init__ (H0 := shop) (Py.lit "https://shop.example")
                (Py.lit "ck") (Py.lit "cs") in
  Report.get_sales_data (H0 := shop) 2 self 30
  = Some (Raise (ValueError "timed out")).
Proof.
  intros pages shop self.
  apply (@fetch_error_propagates _ shop self 30
           (λ _, [ {| date_created := Py.lit "2024-01-02" |} ]) 1 2).
  - intros k Hk. assert (k = 1) as -> by lia.
    split; [reflexivity | discriminate].
  - reflexivity.
  - lia.
Defined.

(** Nothing but an empty page or an exception ends the fetch: against a
    shop that answers every page with some orders the loop is still
    running after any number of requests. *)
Theorem fetch_needs_an_empty_page `{Shop} (self : Report.t) (days : Z)
    (fuel : nat) :
  (∀ k, 1 ≤ k →
        ∃ orders, Spec.answer self days k = Ok orders ∧ orders ≠ []) →
  Report.get_sales_data fuel self days = None.
Proof.
  intros Hpages. unfold Report.get_sales_data. cbv zeta.
  assert (Hp : ∀ p, 1 ≤ p →
            ∀ all_orders,
              Report.fetch_loop fuel self (minus_days now days) now
                all_orders p = None).
  { induction fuel as [|fuel IH]; intros p Hp all_orders; [done|].
    rewrite fetch_loop_step.
    destruct (Hpages p Hp) as (orders & -> & Hne).
    destruct orders as [|o orders]; [done|]. apply IH. lia. }
  by apply Hp.
Qed.

Lemma fetch_needs_an_empty_page_witness :
  let shop := SampleShop.shop SampleShop.today SampleShop.endless in
  let self := Report.__init__ (H0 := shop) (Py.lit "https://shop.example")
                (Py.lit "ck") (Py.lit "cs") in
  Report.get_sales_data (H0 := shop) 1000 self 30 = None.
Proof.
  intros shop self.
  apply (@fetch_needs_an_empty_page _ shop self 30 1000).
  intros k Hk. eexists. split; [reflexivity | discriminate].
Defined.

(** ** The report *)

Lemma ma7_weights_valid : Spec.valid_weights 7 Report.ma7_weights.
Proof. split; [reflexivity | vm_compute; discriminate]. Qed.

(** With the three keys present, a fetch that ends and timestamps that all
    parse, [main] meets no exception: neither average and no step of the
    drawing can raise on the daily counts.  It prints the banner, the two
    progress lines, the chart of the counts and of their two 7-day
    averages over the labels 29 down to 0, and the closing line, and
    returns. *)
Theorem main_shows_the_chart `{Shop} (fuel : nat)
    (keys : list (Py.str * Py.str)) (url consumer_key consumer_secret : Py.str)
    (orders : list order) :
  Py.dict_get keys (Py.lit "url") = Some url →
  Py.dict_get keys (Py.lit "consumer_key") = Some consumer_key →
  Py.dict_get keys (Py.lit "consumer_secret") = Some consumer_secret →
  Report.get_sales_data fuel (Report.__init__ url consumer_key consumer_secret)
    30 = Some (Ok orders) →
  Forall Spec.parses orders →
  ∃ daily_sales ma7 ma7_weighted visualization,
    aggregate_daily_sales orders = Ok daily_sales
    ∧ calculate_moving_average (inject_Z <$> daily_sales.*2) 7 None = Ok ma7
    ∧ calculate_moving_average (inject_Z <$> daily_sales.*2) 7
        (Some [5 # 100; 1 # 10; 1 # 10; 15 # 100; 15 # 100; 2 # 10; 25 # 100]%Q)
      = Ok ma7_weighted
    ∧ draw __init__
        [ ((λ n, Some (inject_Z n)) <$> daily_sales.*2,
           Py.lit "Daily Sales", Report.full_block);
          (ma7, Py.lit "7-day Moving Average", Report.diamond);
          (ma7_weighted, Py.lit "7-day Weighted MA", Report.circle) ]
        (Z.of_nat <$> rev (seq 0 30))
      = Ok visualization
    ∧ Report.main fuel keys
      = {| Report.printed :=
             [ Report.print_retro_header; Report.fetching;
               Report.processing; visualization; Report.press_any_key ];
           Report.end_of_run := Report.Returned |}.
Proof.
  intros Hurl Hkey Hsecret Hfetch Hall.
  destruct (aggregate_all_parse orders Hall) as (ks & _ & Hagg).
  set (daily_sales := Py.sorted (fold_left Py.defaultdict_incr ks [])) in *.
  assert (H7 : 1 ≤ 7) by lia.
  pose proof (calculate_moving_average_valid (inject_Z <$> daily_sales.*2) 7
                H7 None (uniform_weights_valid 7 H7)) as Hma7.
  pose proof (calculate_moving_average_valid (inject_Z <$> daily_sales.*2) 7
                H7 (Some Report.ma7_weights) ma7_weights_valid) as Hweighted.
  set (ma7 := Spec.loop_entry _ 7 (Spec.weights_in_effect 7 None) <$> _)
    in Hma7.
  set (ma7_weighted :=
         Spec.loop_entry _ 7
           (Spec.weights_in_effect 7 (Some Report.ma7_weights)) <$> _)
    in Hweighted.
  destruct (draw_returns
              [ ((λ n, Some (inject_Z n)) <$> daily_sales.*2,
                 Py.lit "Daily Sales", Report.full_block);
                (ma7, Py.lit "7-day Moving Average", Report.diamond);
                (ma7_weighted, Py.lit "7-day Weighted MA", Report.circle) ]
              (Report.range_down (30 - 1) (-1)))
    as [visualization Hdraw]; [done|].
  exists daily_sales, ma7, ma7_weighted, visualization.
  split_and!; [done | done | done | done |].
  unfold Report.main. rewrite Hurl, Hkey, Hsecret. cbv zeta.
  rewrite Hfetch. unfold Report.report. rewrite Hagg. cbv zeta.
  rewrite Hma7, bind_Ok_l, Hweighted, bind_Ok_l, Hdraw. done.
Qed.

Lemma main_shows_the_chart_witness :
  let shop := SampleShop.shop SampleShop.today SampleShop.two_pages in
  ∃ daily_sales ma7 ma7_weighted visualization,
    aggregate_daily_sales (H := IsoCalendar.calendar)
      [ {| date_created := Py.lit "2024-01-02T09:30:00" |};
        {| date_created := Py.lit "2024-01-01T17:05:10" |};
        {| date_created := Py.lit "2024-01-02T11:00:00" |} ]
    = Ok daily_sales
    ∧ calculate_moving_average (inject_Z <$> daily_sales.*2) 7 None = Ok ma7
    ∧ calculate_moving_average (inject_Z <$> daily_sales.*2) 7
        (Some [5 # 100; 1 # 10; 1 # 10; 15 # 100; 15 # 100; 2 # 10; 25 # 100]%Q)
      = Ok ma7_weighted
    ∧ draw __init__
        [ ((λ n, Some (inject_Z n)) <$> daily_sales.*2,
           Py.lit "Daily Sales", Report.full_block);
          (ma7, Py.lit "7-day Moving Average", Report.diamond);
          (ma7_weighted, Py.lit "7-day Weighted MA", Report.circle) ]
        (Z.of_nat <$> rev (seq 0 30))
      = Ok visualization
    ∧ Report.main (H0 := shop) 5 SampleShop.keys
      = {| Report.printed :=
             [ Report.print_retro_header; Report.fetching;
               Report.processing; visualization; Report.press_any_key ];
           Report.end_of_run := Report.Returned |}.
Proof.
  intros shop.
  apply (@main_shows_the_chart _ shop 5 SampleShop.keys
           (Py.lit "https://shop.example") (Py.lit "ck") (Py.lit "cs")).
  - reflexivity.
  - reflexivity.
  - reflexivity.
  - reflexivity.
  - repeat constructor; eexists; reflexivity.
Defined.

(** An exception of the client during the fetch, or of the parsing of a
    timestamp, is caught: [main] prints the three lines of the error box
    with the text of the exception after the banner and the first progress
    line, prints neither the second progress line nor a chart, and
    returns. *)
Theorem main_reports_errors `{Shop} (fuel : nat)
    (keys : list (Py.str * Py.str)) (url consumer_key consumer_secret : Py.str)
    (e : exn) :
  Py.dict_get keys (Py.lit "url") = Some url →
  Py.dict_get keys (Py.lit "consumer_key") = Some consumer_key →
  Py.dict_get keys (Py.lit "consumer_secret") = Some consumer_secret →
  let fetched :=
    Report.get_sales_data fuel
      (Report.__init__ url consumer_key consumer_secret) 30 in
  fetched = Some (Raise e)
  ∨ (∃ orders, fetched = Some (Ok orders)
               ∧ aggregate_daily_sales orders = Raise e) →
  Report.main fuel keys
  = {| Report.printed :=
         [ Report.print_retro_header; Report.fetching;
           Glyph.double_down_right ++ Py.repeat Glyph.double_horizontal 3
           ++ Py.lit " ERROR " ++ Py.repeat Glyph.double_horizontal 3
           ++ Glyph.double_down_left;
           Glyph.double_vertical ++ Py.lit " "
           ++ Py.format_left (Report.str_of_exn e) 11 ++ Py.lit " "
           ++ Glyph.double_vertical;
           Glyph.double_up_right ++ Py.repeat Glyph.double_horizontal 13
           ++ Glyph.double_up_left ];
       Report.end_of_run := Report.Returned |}.
Proof.
  intros Hurl Hkey Hsecret fetched Hraise.
  unfold Report.main. rewrite Hurl, Hkey, Hsecret. cbv zeta. fold fetched.
  destruct Hraise as [-> | (orders & -> & Hagg)]; [done|].
  unfold Report.report. by rewrite Hagg.
Qed.

Lemma main_reports_errors_witness :
  let pages := λ p : Z,
    if bool_decide (p = 1)
    then Ok [ {| date_created := Py.lit "2024-01-02" |};
              {| date_created := Py.lit "yesterday" |} ]
    else Ok [] in
  let shop := SampleShop.shop SampleShop.today pages in
  Report.main (H0 := shop) 3 SampleShop.keys
  = {| Report.printed :=
         [ Report.print_retro_header; Report.fetching;
           Glyph.double_down_right ++ Py.repeat Glyph.double_horizontal 3
           ++ Py.lit " ERROR " ++ Py.repeat Glyph.double_horizontal 3
           ++ Glyph.double_down_left;
           Glyph.double_vertical ++ Py.lit " "
           ++ Py.format_left (Report.str_of_exn IsoCalendar.invalid) 11
           ++ Py.lit " " ++ Glyph.double_vertical;
           Glyph.double_up_right ++ Py.repeat Glyph.double_horizontal 13
           ++ Glyph.double_up_left ];
       Report.end_of_run := Report.Returned |}.
Proof.
  intros pages shop.
  apply (@main_reports_errors _ shop 3 SampleShop.keys
           (Py.lit "https://shop.example") (Py.lit "ck") (Py.lit "cs")
           IsoCalendar.invalid).
  - reflexivity.
  - reflexivity.
  - reflexivity.
  - right. eexists. split; reflexivity.
Defined.

(** ** The superseded renderer *)

Lemma superseded_normalized_series (data_series : list series) :
  mapM (λ '(data, label, symbol),
          nd ← Superseded.normalize_data Superseded.__init__ data;
          mret (nd, label, symbol))
    data_series
  = Ok ((λ '(data, label, symbol),
           (Spec.normalized 20 20 data, label, symbol)) <$> data_series).
Proof.
  apply (mapM_total _ (λ '(data, label, symbol),
                         (Spec.normalized 20 20 data, label, symbol))).
  intros [[data label] symbol].
  unfold Superseded.normalize_data.
  rewrite (mapM_total _ (fmap (Spec.int_row 20 20))); [done|].
  by intros [x|].
Qed.


(** ** When [draw] returns *)


(** ** The lines of the chart *)

Lemma fold_left_snoc {A B} (f : A → B) (l : list A) (acc : list B) :
  fold_left (λ out x, out ++ [f x]) l acc = acc ++ (f <$> l).
Proof.
  revert acc. induction l as [|x l IH]; intros acc; simpl.
  - by rewrite app_nil_r.
  - by rewrite IH, <- app_assoc.
Qed.

Lemma fold_left_lines {A B} (step : list B → A → list B) (l : list A)
    (acc : list B) :
  (∀ out x, ∃ line, step out x = out ++ [line]) →
  ∃ lines, fold_left step l acc = acc ++ lines ∧ length lines = length l.
Proof.
  intros Hstep. revert acc. induction l as [|x l IH]; intros acc; simpl.
  - exists []. by rewrite app_nil_r.
  - destruct (Hstep acc x) as [line ->].
    destruct (IH (acc ++ [line])) as (lines & -> & Hlen).
    exists (line :: lines). rewrite <- app_assoc. simpl. by rewrite Hlen.
Qed.

Lemma render_lines (data_series : list series) (days_ago : list Z)
    (graph : canvas) (x_scale : Q) :
  ∃ before after,
    render __init__ data_series days_ago graph x_scale
    = Ok (Py.join Py.newline
            (before
             ++ ((λ i, Spec.chart_line (20 - i)
                         (default [] (graph !! Z.to_nat i)))
                   <$> Py.range 20)
             ++ after))
    ∧ length before = (length data_series + 4)%nat
    ∧ length after = 4%nat.
Proof.
  unfold render. cbv zeta.
  assert (E : ∃ c, Py.format_center (Py.lit "Days Ago") (width __init__) = Ok c)
    by (eexists; reflexivity).
  destruct E as [caption ->]. rewrite bind_Ok_l.
  destruct (fold_left_lines
              (λ (output : list Py.str) '(_, label, symbol),
                 output ++ [Glyph.double_vertical ++ Py.lit " " ++ symbol
                            ++ Py.lit " : " ++ Py.format_left label 32
                            ++ Py.lit " " ++ Glyph.double_vertical])
              data_series ([] ++ [Glyph.legend_top]))
    as (legend & -> & Hlegend).
  { intros out [[data label] symbol]. by eexists. }
  pose proof (λ acc,
                fold_left_snoc
                  (λ i, Spec.chart_line (max_y __init__ - i)
                          (default [] (graph !! Z.to_nat i)))
                  (Py.range (height __init__)) acc) as Erows.
  cbv beta in Erows. unfold Spec.chart_line in Erows at 1. rewrite Erows.
  eexists (Glyph.legend_top :: legend ++ [Glyph.legend_bottom; []; _]).
  eexists [_; _; _; _].
  split; [|split].
  - unfold mret, result_ret. do 2 f_equal.
    rewrite <- !app_assoc. simpl. rewrite <- !app_assoc. reflexivity.
  - rewrite length_cons, length_app, Hlegend. cbn [length].
    unfold series. lia.
  - reflexivity.
Qed.

Lemma int_row_of_count (v : Z) :
  0 ≤ v → 20 - Spec.int_row 20 20 (inject_Z v) = Z.max 1 (Z.min v 20).
Proof.
  intros Hv. unfold Spec.int_row. rewrite min_is_Qmin.
  assert (E : Qmin (inject_Z v) (inject_Z 20) = inject_Z (Z.min v 20)).
  { unfold Qmin, GenericMinMax.gmin.
    destruct (Qcompare_spec (inject_Z v) (inject_Z 20)) as [Heq|Hlt|Hgt].
    - unfold Qeq in Heq. simpl in Heq. f_equal. lia.
    - rewrite <- Zlt_Qlt in Hlt. f_equal. lia.
    - rewrite <- Zlt_Qlt in Hgt. f_equal. lia. }
  rewrite E. set (m := Z.min v 20). assert (Hm : 0 ≤ m ≤ 20) by lia.
  clearbody m.
  assert (Hint : Py.int (inject_Z m / inject_Z 20 * inject_Z (20 - 1))
                 = (m * 19) `div` 20).
  { unfold Py.int, Qdiv, Qmult, Qinv, inject_Z. simpl.
    rewrite Z.quot_div_nonneg by lia. f_equal. lia. }
  rewrite Hint.
  assert (m = 0 ∨ 1 ≤ m) as [-> | Hpos] by lia; [done|].
  assert ((m * 19) `div` 20 = m - 1); [|lia].
  symmetry. apply (Z.div_unique_pos _ _ _ (20 - m)); lia.
Qed.

(** The y axis counts from 1.  In the text that [draw] returns, the line of
    canvas row [i] is labelled [20 - i], so the points of an integer count
    [v >= 0] stand on the line labelled [max(1, min(v, 20))]: the counts 1
    to 20 on the line of their own value, 0 on the line labelled 1, and
    every count above 20 on the line labelled 20.  The text has 28 lines
    and one more for each series. *)
Theorem counts_stand_on_their_labels (data_series : list series)
    (days_ago : list Z) (text : Py.str) (v : Z) :
  draw __init__ data_series days_ago = Ok text →
  0 ≤ v →
  let y := Spec.int_row 20 20 (inject_Z v) in
  ∃ graph x_scale lines,
    plot __init__ data_series days_ago = Ok (graph, x_scale)
    ∧ text = Py.join Py.newline lines
    ∧ Py.len lines = Py.len data_series + 28
    ∧ 0 ≤ y < 20
    ∧ lines !! Z.to_nat (Py.len data_series + 4 + y)
      = Some (Spec.chart_line (Z.max 1 (Z.min v 20))
                (default [] (graph !! Z.to_nat y))).
Proof.
  intros Hdraw Hv y. unfold draw in Hdraw.
  destruct (plot __init__ data_series days_ago) as [[graph x_scale]|e];
    [|done].
  rewrite bind_Ok_l in Hdraw.
  destruct (render_lines data_series days_ago graph x_scale)
    as (before & after & Hrender & Hbefore & Hafter).
  rewrite Hrender in Hdraw.
  assert (Hy : 0 ≤ y < 20).
  { pose proof (int_row_of_count v Hv) as Hrow. fold y in Hrow. lia. }
  exists graph, x_scale,
    (before
     ++ ((λ i, Spec.chart_line (20 - i) (default [] (graph !! Z.to_nat i)))
           <$> Py.range 20)
     ++ after).
  split_and!; [done | congruence | | lia | lia |].
  - unfold Py.len, Py.range.
    rewrite !length_app, length_fmap, length_seqZ, Hbefore, Hafter. lia.
  - unfold Py.len.
    rewrite lookup_app_r by lia.
    rewrite lookup_app_l
      by (unfold Py.range; rewrite length_fmap, length_seqZ; lia).
    rewrite list_lookup_fmap. unfold Py.range.
    replace (Z.to_nat (Z.of_nat (length data_series) + 4 + y) - length before)%nat
      with (Z.to_nat y) by lia.
    rewrite lookup_seqZ_lt by lia. simpl.
    rewrite Z2Nat.id by lia. rewrite <- (int_row_of_count v Hv). done.
Qed.

Lemma counts_stand_on_their_labels_witness :
  let y := Spec.int_row 20 20 (inject_Z 0) in
  ∃ graph x_scale lines,
    plot __init__ [] [1; 0] = Ok (graph, x_scale)
    ∧ default [] (match draw __init__ [] [1; 0] with
                  | Ok text => Some text
                  | Raise _ => None
                  end) = Py.join Py.newline lines
    ∧ Py.len lines = Py.len (@nil series) + 28
    ∧ 0 ≤ y < 20
    ∧ lines !! Z.to_nat (Py.len (@nil series) + 4 + y)
      = Some (Spec.chart_line (Z.max 1 (Z.min 0 20))
                (default [] (graph !! Z.to_nat y))).
Proof.
  apply (counts_stand_on_their_labels [] [1; 0] _ 0).
  - reflexivity.
  - lia.
Defined.
